(** * Density histogram (src/density/density.cpp): a shallow embedding

    The class [Density] reads a list of raw float files, one contiguous block
    of the list per MPI rank, finds the global extrema of the samples with two
    [MPI_Allreduce] calls, bins every local sample into [nb_bins] equal-width
    bins, sums the local histograms with a third [MPI_Allreduce] and lets
    rank 0 write the result as text.

    Conventions of the embedding:
    - [long] counters and sizes ([local_count], [total_count], the entries of
      the histogram, the [count] of an input) are [nat]; [int] values that the
      code compares against zero or that come out of a cast ([nb_bins], the
      bin index) are [Z], with the range of [int] checked at the cast;
    - [float] and [double] arithmetic is an interface, [Arith], with two
      instances: [Exact], where finite values are rationals and the operations
      do not round, and [Binary64], the IEEE 754 binary64 operations of the
      kernel's primitive floats.  General statements about the bin index are
      proved for [Exact]; [Binary64] runs the code on concrete inputs;
    - a sample of [Binary64] is a binary64 value that a [float] can hold (the
      conversion from [float] to [double] is exact); samples are finite;
    - counters do not overflow: a rank holds fewer than 2^31 samples, so the
      [int] counter of the binning loop stays in range;
    - [assert] is modelled as checked (a build without NDEBUG);
    - an MPI rank is a program of type [mpi A] whose nodes are the collective
      calls; a world of ranks is run in lock step by [exec];
    - what the code prints on [std::cout] is not modelled. *)

From Stdlib Require Import List ZArith QArith Qround Bool Lia Arith String Ascii.
From Stdlib Require Import Floats DecimalString Qfield Lqa.
Import ListNotations.

Close Scope Q_scope.


(* ------------------------------------------------------------------ *)
(** ** Failures *)

(** How a rank can stop without returning: an exception that leaves the
    constructor, a failed [assert], undefined behaviour of C++ (an
    out-of-range cast or index), or a collective call that the other ranks
    never match. *)
Inductive failure : Type :=
| RuntimeError (what : string)
| AssertionFailed (what : string)
| UndefinedBehaviour (what : string)
| Deadlock.

(* ------------------------------------------------------------------ *)
(** ** Floating-point values and their arithmetic *)

(** The exact value of a [double]: a rational, an infinity or a NaN.
    The sign of zero is not kept. *)
Inductive ext : Type :=
| Fin (q : Q)
| PInf
| NInf
| NaN.

(** The operations the code uses on [float] and [double]. *)
Class Arith : Type := {
  float32 : Type;
  double : Type;
  (** [float()] : the value [std::vector<float>::resize] fills with *)
  f_zero : float32;
  (** [operator<] on [float], as [std::min_element] and [std::max_element] call it *)
  f_lt : float32 -> float32 -> bool;
  (** the implicit conversion [float] to [double] *)
  to_double : float32 -> double;
  (** the implicit conversion [int] to [double] *)
  d_of_int : Z -> double;
  d_add : double -> double -> double;
  d_sub : double -> double -> double;
  d_mul : double -> double -> double;
  d_div : double -> double -> double;
  (** [operator<] on [double], as [MPI_MAX] and [MPI_MIN] compare *)
  d_lt : double -> double -> bool;
  (** the exact value of a [double] *)
  d_view : double -> ext
}.

Definition INT_MAX : Z := 2147483647.
Definition INT_MIN : Z := -2147483648.

(** Truncation toward zero of a rational. *)
Definition Qtrunc (q : Q) : Z := Z.quot (Qnum q) (Zpos (Qden q)).

(** ** The exact instance: rationals with the IEEE special values *)

Module ExactOps.

Definition is_zero (q : Q) : bool := (Qnum q =? 0)%Z.
Definition is_neg (q : Q) : bool := (Qnum q <? 0)%Z.

Definition opp (a : ext) : ext :=
  match a with
  | Fin q => Fin (- q)
  | PInf => NInf
  | NInf => PInf
  | NaN => NaN
  end.

Definition add (a b : ext) : ext :=
  match a, b with
  | NaN, _ | _, NaN => NaN
  | Fin p, Fin q => Fin (p + q)
  | PInf, NInf | NInf, PInf => NaN
  | PInf, _ | _, PInf => PInf
  | NInf, _ | _, NInf => NInf
  end.

Definition sub (a b : ext) : ext := add a (opp b).

(** An infinity of the sign of [q], for [q] not zero. *)
Definition inf_of_sign (negative : bool) : ext := if negative then NInf else PInf.

Definition mul (a b : ext) : ext :=
  match a, b with
  | NaN, _ | _, NaN => NaN
  | Fin p, Fin q => Fin (p * q)
  | Fin p, PInf | PInf, Fin p => if is_zero p then NaN else inf_of_sign (is_neg p)
  | Fin p, NInf | NInf, Fin p => if is_zero p then NaN else inf_of_sign (negb (is_neg p))
  | PInf, PInf | NInf, NInf => PInf
  | PInf, NInf | NInf, PInf => NInf
  end.

(** Division; a zero divisor is the positive zero: [0/0] is a NaN and
    [p/0] an infinity of the sign of [p]. *)
Definition div (a b : ext) : ext :=
  match a, b with
  | NaN, _ | _, NaN => NaN
  | Fin p, Fin q =>
      if is_zero q then (if is_zero p then NaN else inf_of_sign (is_neg p))
      else Fin (p / q)
  | Fin _, (PInf | NInf) => Fin 0
  | PInf, Fin q => inf_of_sign (is_neg q)
  | NInf, Fin q => inf_of_sign (negb (is_neg q))
  | (PInf | NInf), (PInf | NInf) => NaN
  end.

Definition Qltb (p q : Q) : bool :=
  (Qnum p * Zpos (Qden q) <? Qnum q * Zpos (Qden p))%Z.

Definition lt (a b : ext) : bool :=
  match a, b with
  | NaN, _ | _, NaN => false
  | Fin p, Fin q => Qltb p q
  | NInf, (Fin _ | PInf) => true
  | Fin _, PInf => true
  | _, _ => false
  end.

End ExactOps.

#[export] Instance Exact : Arith := {|
  float32 := Q;
  double := ext;
  f_zero := 0%Q;
  f_lt := ExactOps.Qltb;
  to_double := Fin;
  d_of_int := fun z => Fin (inject_Z z);
  d_add := ExactOps.add;
  d_sub := ExactOps.sub;
  d_mul := ExactOps.mul;
  d_div := ExactOps.div;
  d_lt := ExactOps.lt;
  d_view := fun x => x
|}.

(** ** The binary64 instance: the kernel's primitive floats *)

Module Binary64Ops.

(** [int] to [double]: exact, an [int] has at most 31 significant bits. *)
Definition of_int (z : Z) : float :=
  if (z <? 0)%Z then PrimFloat.opp (PrimFloat.of_uint63 (Uint63.of_Z (- z)))
  else PrimFloat.of_uint63 (Uint63.of_Z z).

Definition view (x : float) : ext :=
  match Prim2SF x with
  | S754_zero _ => Fin 0
  | S754_infinity s => if s then NInf else PInf
  | S754_nan => NaN
  | S754_finite s m e =>
      let mag := if (0 <=? e)%Z then inject_Z (Zpos m * 2 ^ e)
                 else (Zpos m # Pos.shiftl 1 (Z.to_N (- e)))%Q in   (* m / 2^(-e) *)
      Fin (Qred (if s then Qopp mag else mag))
  end.

End Binary64Ops.

Definition Binary64 : Arith := {|
  float32 := float;
  double := float;
  f_zero := PrimFloat.zero;
  f_lt := PrimFloat.ltb;
  to_double := fun x => x;
  d_of_int := Binary64Ops.of_int;
  d_add := PrimFloat.add;
  d_sub := PrimFloat.sub;
  d_mul := PrimFloat.mul;
  d_div := PrimFloat.div;
  d_lt := PrimFloat.ltb;
  d_view := Binary64Ops.view
|}.

Section Binning.
Context {Ar : Arith}.

(** [static_cast<int>(x)]: truncation toward zero; undefined ([None]) when
    the truncated value is no [int], so for an infinity or a NaN. *)
Definition static_cast_int (x : double) : option Z :=
  match d_view x with
  | Fin q =>
      let t := Qtrunc q in
      if ((INT_MIN <=? t) && (t <=? INT_MAX))%Z then Some t else None
  | _ => None
  end.

(** Lines 151-152: the index of a sample before the clamp. [range] and
    [capacity] are the two constants of lines 147-148. *)
Definition raw_index (total_min range capacity : double) (x : float32) : option Z :=
  let relative_value := d_div (d_sub (to_double x) total_min) range in
  static_cast_int (d_div (d_mul range relative_value) capacity).

(** Lines 154-155: [if (index >= nb_bins) index--]. *)
Definition clamp (nb_bins index : Z) : Z :=
  if (nb_bins <=? index)%Z then (index - 1)%Z else index.


End Binning.

(* ------------------------------------------------------------------ *)
(** ** Text output: the part of [std::ostream] the writer uses *)

Module Ostream.

Definition dec_of_nat (n : nat) : string := NilZero.string_of_uint (Nat.to_uint n).
Definition dec_of_Z (z : Z) : string := NilZero.string_of_int (Z.to_int z).

Fixpoint spaces (n : nat) : string :=
  match n with
  | O => EmptyString
  | S n' => String " "%char (spaces n')
  end.

(** Padding to a field width: the fill character is a space and the text is
    adjusted to the right; a longer text is not cut. *)
Definition pad (w : nat) (s : string) : string :=
  (spaces (w - String.length s) ++ s)%string.

Fixpoint zeros (n : nat) : string :=
  match n with
  | O => EmptyString
  | S n' => String "0"%char (zeros n')
  end.

(** [n] as decimal digits, with zeros in front up to [w] digits. *)
Definition digits (w : nat) (n : Z) : string :=
  let s := dec_of_Z n in (zeros (w - String.length s) ++ s)%string.

(** Rounding of the positive rational [n/d] to the nearest integer, ties to
    the even one. *)
Definition round_half_even (n d : Z) : Z :=
  let q := (n / d)%Z in
  let r := (n mod d)%Z in
  match (2 * r ?= d)%Z with
  | Lt => q
  | Gt => (q + 1)%Z
  | Eq => if Z.even q then q else (q + 1)%Z
  end.

(** [round_half_even (n/d * 10^s)] for any integer [s]. *)
Definition round_scaled (n d s : Z) : Z :=
  if (0 <=? s)%Z then round_half_even (n * 10 ^ s) d
  else round_half_even n (d * 10 ^ (- s)).

(** The decimal exponent of the positive rational [n/d]: the [X] with
    [10^X <= n/d < 10^(X+1)]. *)
Fixpoint exp_down (fuel : nat) (n d X : Z) : Z :=
  match fuel with
  | O => X
  | S f => if (d <=? n)%Z then X else exp_down f (10 * n)%Z d (X - 1)%Z
  end.

Fixpoint exp_up (fuel : nat) (n d X : Z) : Z :=
  match fuel with
  | O => X
  | S f => if (n <? 10 * d)%Z then X else exp_up f n (10 * d)%Z (X + 1)%Z
  end.

Definition decimal_exponent (n d : Z) : Z :=
  if (d <=? n)%Z then exp_up (S (Z.to_nat (Z.log2 n))) n d 0
  else exp_down (S (Z.to_nat (Z.log2 d))) n d 0.

Fixpoint rev_string_acc (s acc : string) : string :=
  match s with
  | EmptyString => acc
  | String c s' => rev_string_acc s' (String c acc)
  end.

Fixpoint drop_zeros (s : string) : string :=
  match s with
  | String "0"%char s' => drop_zeros s'
  | _ => s
  end.

(** Removal of the zeros that end a fractional part. *)
Definition strip_zeros (s : string) : string :=
  rev_string_acc (drop_zeros (rev_string_acc s EmptyString)) EmptyString.

Definition with_fraction (int_part frac : string) : string :=
  match strip_zeros frac with
  | EmptyString => int_part
  | f => (int_part ++ "." ++ f)%string
  end.

(** The conversion [%g] with precision [p] of the positive rational [n/d]:
    [p] significant digits ([p = 0] counts as 1), scientific notation when the
    decimal exponent [X] of the rounded value has [X < -4] or [X >= p], the
    zeros that end the fraction removed. *)
Definition general_pos (p : nat) (n d : Z) : string :=
  let P := Z.of_nat (Nat.max p 1) in
  let X0 := decimal_exponent n d in
  let m0 := round_scaled n d (P - 1 - X0) in
  let '(m, X) := if (10 ^ P <=? m0)%Z then ((10 ^ (P - 1))%Z, (X0 + 1)%Z) else (m0, X0) in
  let ds := digits (Z.to_nat P) m in
  if ((X <? -4) || (P <=? X))%Z then
    (with_fraction (substring 0 1 ds) (substring 1 (Z.to_nat P - 1) ds)
     ++ "e" ++ (if (X <? 0)%Z then "-" else "+") ++ digits 2 (Z.abs X))%string
  else if (0 <=? X)%Z then
    with_fraction (substring 0 (Z.to_nat (X + 1)) ds)
                  (substring (Z.to_nat (X + 1)) (Z.to_nat (P - 1 - X)) ds)
  else
    with_fraction "0" (zeros (Z.to_nat (- X - 1)) ++ ds)%string.

(** The conversion [%f] with precision [p] of the positive rational [n/d]:
    [p] digits after the decimal point. *)
Definition fixed_pos (p : nat) (n d : Z) : string :=
  let m := round_scaled n d (Z.of_nat p) in
  let int_part := dec_of_Z (m / 10 ^ Z.of_nat p) in
  match p with
  | O => int_part
  | _ => (int_part ++ "." ++ digits p (m mod 10 ^ Z.of_nat p))%string
  end.

Inductive floatfield : Type := ff_general | ff_fixed.

Definition format_finite (ff : floatfield) (p : nat) (q : Q) : string :=
  let n := Qnum q in
  let d := Zpos (Qden q) in
  let body (a : Z) :=
    match ff with
    | ff_general => if (a =? 0)%Z then "0"%string else general_pos p a d
    | ff_fixed => fixed_pos p a d
    end in
  if (n <? 0)%Z then ("-" ++ body (- n)%Z)%string else body n.

Definition format_double (ff : floatfield) (p : nat) (x : ext) : string :=
  match x with
  | Fin q => format_finite ff p q
  | PInf => "inf"
  | NInf => "-inf"
  | NaN => "nan"
  end.

(** The formatting state of a stream and the text written so far. A new
    stream has width 0, precision 6 and no [floatfield] flag set. *)
Record t : Type := mk {
  width : nat;
  precision : nat;
  notation : floatfield;
  text : string
}.

Definition fresh : t := mk 0 6 ff_general EmptyString.

Definition setw (w : nat) (o : t) : t := mk w (precision o) (notation o) (text o).
Definition setprecision (p : nat) (o : t) : t := mk (width o) p (notation o) (text o).

(** Every insertion pads to the current width and sets the width back to 0. *)
Definition put (s : string) (o : t) : t :=
  mk 0 (precision o) (notation o) (text o ++ pad (width o) s)%string.

Definition put_double (x : ext) (o : t) : t :=
  put (format_double (notation o) (precision o) x) o.
Definition put_long (n : nat) (o : t) : t := put (dec_of_nat n) o.

Definition newline : string := String (ascii_of_nat 10) EmptyString.
Definition tab : string := String (ascii_of_nat 9) EmptyString.

(** [std::endl] writes a newline; it does not pad. *)
Definition endl (o : t) : t :=
  mk (width o) (precision o) (notation o) (text o ++ newline)%string.

End Ostream.

(* ------------------------------------------------------------------ *)
(** ** MPI ranks and their collective calls *)

Inductive reduce_op : Type := MPI_MAX | MPI_MIN.

Section World.
Context {Ar : Arith}.

(** The program of one rank, up to its next collective call. The call's
    continuation receives what the call stores in the receive buffer.
    - [AllreduceSum]: [MPI_Allreduce] of [MPI_LONG] values with [MPI_SUM];
    - [AllreduceDouble]: [MPI_Allreduce] of one [MPI_DOUBLE] with [MPI_MAX]
      or [MPI_MIN];
    - [Barrier]: [MPI_Barrier]. *)
Inductive mpi (A : Type) : Type :=
| Ret (a : A)
| Fail (f : failure)
| AllreduceSum (xs : list nat) (k : list nat -> mpi A)
| AllreduceDouble (op : reduce_op) (x : double) (k : double -> mpi A)
| Barrier (k : mpi A).

Arguments Ret {A} a.
Arguments Fail {A} f.
Arguments AllreduceSum {A} xs k.
Arguments AllreduceDouble {A} op x k.
Arguments Barrier {A} k.

Fixpoint bind {A B : Type} (m : mpi A) (f : A -> mpi B) : mpi B :=
  match m with
  | Ret a => f a
  | Fail e => Fail e
  | AllreduceSum xs k => AllreduceSum xs (fun r => bind (k r) f)
  | AllreduceDouble op x k => AllreduceDouble op x (fun r => bind (k r) f)
  | Barrier k => Barrier (bind k f)
  end.

(** A step that uses no collective call. *)
Definition lift {A : Type} (r : failure + A) : mpi A :=
  match r with
  | inl e => Fail e
  | inr a => Ret a
  end.

(** [assert(b)] *)
Definition assert (b : bool) (what : string) : failure + unit :=
  if b then inr tt else inl (AssertionFailed what).

(** *** What a reduction computes *)

Definition d_max (a b : double) : double := if d_lt a b then b else a.
Definition d_min (a b : double) : double := if d_lt b a then b else a.

Definition combine_double (op : reduce_op) : double -> double -> double :=
  match op with
  | MPI_MAX => d_max
  | MPI_MIN => d_min
  end.

(** The contributions are combined in rank order, from rank 0. *)
Definition reduce_double (op : reduce_op) (x : double) (xs : list double) : double :=
  fold_left (combine_double op) xs x.

Fixpoint vadd (xs ys : list nat) : list nat :=
  match xs, ys with
  | x :: xs', y :: ys' => (x + y) :: vadd xs' ys'
  | _, _ => []
  end.

Definition reduce_sum (xs : list nat) (xss : list (list nat)) : list nat :=
  fold_left vadd xss xs.

(** *** Lock-step execution of a world *)

(** Where the other ranks must stand when rank 0 stands at a given call: a
    rank that has failed aborts the job with its failure, a rank at
    another call (or at its end) leaves the world waiting for ever. *)
Fixpoint all_ret {A : Type} (ps : list (mpi A)) : failure + list A :=
  match ps with
  | [] => inr []
  | Ret a :: ps' =>
      match all_ret ps' with
      | inl e => inl e
      | inr l => inr (a :: l)
      end
  | Fail e :: _ => inl e
  | _ :: _ => inl Deadlock
  end.

Fixpoint all_sum {A : Type} (ps : list (mpi A))
  : failure + list (list nat * (list nat -> mpi A)) :=
  match ps with
  | [] => inr []
  | AllreduceSum xs k :: ps' =>
      match all_sum ps' with
      | inl e => inl e
      | inr l => inr ((xs, k) :: l)
      end
  | Fail e :: _ => inl e
  | _ :: _ => inl Deadlock
  end.

Definition same_op (a b : reduce_op) : bool :=
  match a, b with
  | MPI_MAX, MPI_MAX | MPI_MIN, MPI_MIN => true
  | _, _ => false
  end.

Fixpoint all_double {A : Type} (op : reduce_op) (ps : list (mpi A))
  : failure + list (double * (double -> mpi A)) :=
  match ps with
  | [] => inr []
  | AllreduceDouble op' x k :: ps' =>
      if same_op op op' then
        match all_double op ps' with
        | inl e => inl e
        | inr l => inr ((x, k) :: l)
        end
      else inl (UndefinedBehaviour "MPI_Allreduce: the ranks pass different operations")
  | Fail e :: _ => inl e
  | _ :: _ => inl Deadlock
  end.

Fixpoint all_barrier {A : Type} (ps : list (mpi A)) : failure + list (mpi A) :=
  match ps with
  | [] => inr []
  | Barrier k :: ps' =>
      match all_barrier ps' with
      | inl e => inl e
      | inr l => inr (k :: l)
      end
  | Fail e :: _ => inl e
  | _ :: _ => inl Deadlock
  end.

(** The world of rank 0 ([p]) and the ranks after it: every collective call
    returns the same value to every rank. *)
Fixpoint exec_from {A : Type} (p : mpi A) (others : list (mpi A)) {struct p}
  : failure + list A :=
  match p with
  | Ret a =>
      match all_ret others with
      | inl e => inl e
      | inr l => inr (a :: l)
      end
  | Fail e => inl e
  | AllreduceSum xs k =>
      match all_sum others with
      | inl e => inl e
      | inr l =>
          if forallb (fun c => List.length (fst c) =? List.length xs) l then
            let r := reduce_sum xs (map fst l) in
            exec_from (k r) (map (fun c => snd c r) l)
          else inl (UndefinedBehaviour "MPI_Allreduce: the ranks pass different counts")
      end
  | AllreduceDouble op x k =>
      match all_double op others with
      | inl e => inl e
      | inr l =>
          let r := reduce_double op x (map fst l) in
          exec_from (k r) (map (fun c => snd c r) l)
      end
  | Barrier k =>
      match all_barrier others with
      | inl e => inl e
      | inr l => exec_from k l
      end
  end.

(** The outcome of a world, given the program of every rank in rank order:
    the value every rank returns, or the failure that ends the job. *)
Definition exec {A : Type} (ps : list (mpi A)) : failure + list A :=
  match ps with
  | [] => inr []
  | p :: others => exec_from p others
  end.

(** What every rank receives from a reduction, from the contributions of
    all ranks in rank order. *)
Definition reduce_all_double (op : reduce_op) (xs : list double) : double :=
  match xs with
  | [] => d_of_int 0
  | x :: xs' => reduce_double op x xs'
  end.

Definition reduce_all_sum (xss : list (list nat)) : list nat :=
  match xss with
  | [] => []
  | xs :: xss' => reduce_sum xs xss'
  end.

(* ------------------------------------------------------------------ *)
(** ** The class [Density] *)

(** The fields of the configuration file that the constructor reads:
    [density.inputs] (each with its [data] path and its [count]),
    [density.nb_bins] and [density.plots]. The file is taken as parsed, with
    every field the constructor asserts present. *)
Record Config : Type := {
  cfg_inputs : list (string * nat);
  cfg_nb_bins : Z;
  cfg_plots : string
}.

(** The files a rank can see: the samples of an input file ([None] when the
    file cannot be opened), one entry of the list per 4-byte [float], and
    whether a path can be opened for writing. *)
Record FileSystem : Type := {
  read_file : string -> option (list float32);
  can_write : string -> bool
}.

Record Density : Type := {
  my_rank : nat;
  nb_ranks : nat;
  inputs : list (string * nat);
  local_count : nat;
  total_count : nat;
  density : list float32;
  output_plot : string;
  nb_bins : Z;
  histo : list nat;
  total_max : double;
  total_min : double
}.

Definition set_density (d : Density) (buf : list float32) : Density :=
  {| my_rank := my_rank d; nb_ranks := nb_ranks d; inputs := inputs d;
     local_count := local_count d; total_count := total_count d;
     density := buf; output_plot := output_plot d; nb_bins := nb_bins d;
     histo := histo d; total_max := total_max d; total_min := total_min d |}.

Definition set_extents (d : Density) (tmax tmin : double) : Density :=
  {| my_rank := my_rank d; nb_ranks := nb_ranks d; inputs := inputs d;
     local_count := local_count d; total_count := total_count d;
     density := density d; output_plot := output_plot d; nb_bins := nb_bins d;
     histo := histo d; total_max := tmax; total_min := tmin |}.

Definition set_histo (d : Density) (h : list nat) : Density :=
  {| my_rank := my_rank d; nb_ranks := nb_ranks d; inputs := inputs d;
     local_count := local_count d; total_count := total_count d;
     density := density d; output_plot := output_plot d; nb_bins := nb_bins d;
     histo := h; total_max := total_max d; total_min := total_min d |}.

(** The samples the code reads: [density.data()] up to
    [density.data() + local_count]. *)
Definition samples (d : Density) : list float32 :=
  firstn (local_count d) (density d).

(** *** The constructor (lines 35-87) *)

(** Lines 67-73: the inputs of rank [rank], [offset] of them from index
    [rank * offset] of the configured list, and the sum of their counts. *)
Fixpoint dispatch (all : list (string * nat)) (rank offset : nat) (js : list nat)
  : failure + (list (string * nat) * nat) :=
  match js with
  | [] => inr ([], 0)
  | i :: js' =>
      let index := i + rank * offset in
      match nth_error all index with
      | None => inl (UndefinedBehaviour "inputs[index]")
      | Some current =>
          match dispatch all rank offset js' with
          | inl e => inl e
          | inr (rest, n) => inr (current :: rest, snd current + n)
          end
      end
  end.

Definition mismatch_message : string :=
  "mismatch on number of ranks and data partition".

Definition Density_new (cfg : Config) (in_rank in_nb_ranks : nat) : mpi Density :=
  bind (lift (assert (0 <? in_nb_ranks) "nb_ranks > 0")) (fun _ =>
  let partition_size := List.length (cfg_inputs cfg) in
  let rank_mismatch :=
    (partition_size <? in_nb_ranks) || negb (partition_size mod in_nb_ranks =? 0) in
  if (in_nb_ranks =? 1) || negb rank_mismatch then
    let offset := partition_size / in_nb_ranks in
    bind (lift (assert (negb (offset =? 0)) "offset")) (fun _ =>
    bind (lift (dispatch (cfg_inputs cfg) in_rank offset (seq 0 offset))) (fun '(ins, count) =>
    AllreduceSum [count] (fun total =>
    bind (lift (assert (0 <? cfg_nb_bins cfg)%Z "nb_bins > 0")) (fun _ =>
    Ret {| my_rank := in_rank; nb_ranks := in_nb_ranks; inputs := ins;
           local_count := count; total_count := hd 0 total;
           density := repeat f_zero count;
           output_plot := cfg_plots cfg; nb_bins := cfg_nb_bins cfg;
           histo := repeat 0 (Z.to_nat (cfg_nb_bins cfg));
           total_max := d_of_int 0; total_min := d_of_int 0 |}))))
  else Fail (RuntimeError mismatch_message)).

(** The block of rank [r] when [W] ranks share the list [all]: the indices
    from [r * (T/W)] up to [(r+1) * (T/W)], [T] the length of [all]. *)
Definition shard (all : list (string * nat)) (W r : nat) : list (string * nat) :=
  firstn (List.length all / W) (skipn (r * (List.length all / W)) all).

(** The sum of the declared counts of a list of inputs. *)
Definition count_sum (ins : list (string * nat)) : nat := list_sum (map snd ins).

(** The object the constructor leaves on rank [r] of [W] when it succeeds. *)
Definition constructed (cfg : Config) (W r : nat) : Density :=
  {| my_rank := r; nb_ranks := W; inputs := shard (cfg_inputs cfg) W r;
     local_count := count_sum (shard (cfg_inputs cfg) W r);
     total_count := count_sum (cfg_inputs cfg);
     density := repeat f_zero (count_sum (shard (cfg_inputs cfg) W r));
     output_plot := cfg_plots cfg; nb_bins := cfg_nb_bins cfg;
     histo := repeat 0 (Z.to_nat (cfg_nb_bins cfg));
     total_max := d_of_int 0; total_min := d_of_int 0 |}.

(** *** [loadFiles] (lines 90-120) *)

Section Files.
Variable fs : FileSystem.

(** [file.read(buffer, size)] at [density.data() + offset]: the samples read
    replace those of the buffer from [offset] on. *)
Definition write_at (buf : list float32) (offset : nat) (data : list float32)
  : list float32 :=
  firstn offset buf ++ data ++ skipn (offset + List.length data) buf.

(** Lines 99-115. A file that cannot be opened ends the loop with [false];
    a file shorter than its [count] gives what it has, and nothing records
    that the read was short. *)
Fixpoint load_loop (ins : list (string * nat)) (offset : nat) (buf : list float32)
  : bool * list float32 :=
  match ins with
  | [] => (true, buf)
  | (path, count) :: rest =>
      match read_file fs path with
      | None => (false, buf)
      | Some content =>
          load_loop rest (offset + count) (write_at buf offset (firstn count content))
      end
  end.

Definition is_empty {A : Type} (l : list A) : bool :=
  match l with
  | [] => true
  | _ => false
  end.

Definition loadFiles (d : Density) : bool * Density :=
  let '(opened, buf) := load_loop (inputs d) 0 (density d) in
  ((if opened then negb (is_empty buf) else false), set_density d buf).

(** What a complete read of an input brings: its first [count] samples. *)
Definition chunk (input : string * nat) : list float32 :=
  match read_file fs (fst input) with
  | Some content => firstn (snd input) content
  | None => []
  end.

(** *** [dumpHistogram] (lines 175-195) *)

(** Lines 189-190, for the stream [o], the counter [k] and one entry. *)
Definition dump_line (tmin width : double) (o : Ostream.t) (k : Z) (value : nat)
  : Ostream.t :=
  let o := Ostream.setw 10 o in
  let o := Ostream.setprecision 4 o in
  let o := Ostream.put_double (d_view (d_add tmin (d_mul (d_of_int k) width))) o in
  let o := Ostream.put Ostream.tab o in
  let o := Ostream.put_long value o in
  Ostream.endl o.

Fixpoint dump_loop (tmin width : double) (o : Ostream.t) (k : Z) (h : list nat)
  : Ostream.t :=
  match h with
  | [] => o
  | value :: h' => dump_loop tmin width (dump_line tmin width o k value) (k + 1)%Z h'
  end.

Definition dump_header (bins : Z) : Ostream.t :=
  let o := Ostream.fresh in
  let o := Ostream.endl (Ostream.put (Ostream.dec_of_Z bins) (Ostream.put "# bins: " o)) in
  let o := Ostream.endl (Ostream.put "# col 1: density range" o) in
  Ostream.endl (Ostream.put "# col 2: particle count" o).

(** The file written, as its path and its whole content: the file is opened
    with [std::ios::trunc], so nothing of an older file is left. *)
Definition dumpHistogram (d : Density) : failure + (string * string) :=
  let width := d_div (d_sub (total_max d) (total_min d)) (d_of_int (nb_bins d)) in
  let path := (output_plot d ++ ".dat")%string in
  match assert (can_write fs path) "file.is_open()" with
  | inl e => inl e
  | inr _ =>
      inr (path, Ostream.text (dump_loop (total_min d) width (dump_header (nb_bins d)) 1 (histo d)))
  end.

(** *** [computeFrequencies] (lines 124-172) *)

(** [std::min_element] and [std::max_element]: the first smallest and the
    first largest element; on an empty range they return the end iterator. *)
Fixpoint min_from (smallest : float32) (l : list float32) : float32 :=
  match l with
  | [] => smallest
  | x :: l' => min_from (if f_lt x smallest then x else smallest) l'
  end.

Fixpoint max_from (largest : float32) (l : list float32) : float32 :=
  match l with
  | [] => largest
  | x :: l' => max_from (if f_lt largest x then x else largest) l'
  end.

Definition min_element (l : list float32) : option float32 :=
  match l with
  | [] => None
  | x :: l' => Some (min_from x l')
  end.

Definition max_element (l : list float32) : option float32 :=
  match l with
  | [] => None
  | x :: l' => Some (max_from x l')
  end.

(** Lines 129-138: the two asserts and the reduction of the extrema. *)
Definition reduceRange (d : Density) : mpi Density :=
  bind (lift (assert (negb (local_count d =? 0)) "local_count")) (fun _ =>
  bind (lift (assert (negb (total_count d =? 0)) "total_count")) (fun _ =>
  match min_element (samples d), max_element (samples d) with
  | Some local_min, Some local_max =>
      AllreduceDouble MPI_MAX (to_double local_max) (fun tmax =>
      AllreduceDouble MPI_MIN (to_double local_min) (fun tmin =>
      Ret (set_extents d tmax tmin)))
  | _, _ => Fail (UndefinedBehaviour "*std::min_element of an empty range")
  end)).

(** What a rank hands to the two reductions of lines 137-138. *)
Definition local_max (d : Density) : double :=
  match max_element (samples d) with
  | Some x => to_double x
  | None => d_of_int 0
  end.

Definition local_min (d : Density) : double :=
  match min_element (samples d) with
  | Some x => to_double x
  | None => d_of_int 0
  end.

(** The samples of all ranks, in rank order. *)
Definition all_samples (ds : list Density) : list float32 :=
  List.concat (map samples ds).

(** A rank passes the asserts of lines 129-130 and has samples. *)
Definition ready (d : Density) : Prop := total_count d <> 0 /\ samples d <> [].

(** [local_histo[index]++] *)
Fixpoint increment (h : list nat) (index : nat) : option (list nat) :=
  match h, index with
  | [], _ => None
  | c :: h', O => Some (S c :: h')
  | c :: h', S i =>
      match increment h' i with
      | None => None
      | Some h'' => Some (c :: h'')
      end
  end.

(** Lines 151-157: one turn of the loop. *)
Definition bin_step (tmin range capacity : double) (bins : Z)
  (local_histo : list nat) (x : float32) : failure + list nat :=
  match raw_index tmin range capacity x with
  | None => inl (UndefinedBehaviour "static_cast<int>")
  | Some index =>
      let index := clamp bins index in
      if (index <? 0)%Z then inl (UndefinedBehaviour "local_histo[index]")
      else match increment local_histo (Z.to_nat index) with
           | None => inl (UndefinedBehaviour "local_histo[index]")
           | Some h => inr h
           end
  end.

Fixpoint bin_loop (tmin range capacity : double) (bins : Z)
  (local_histo : list nat) (samples : list float32) : failure + list nat :=
  match samples with
  | [] => inr local_histo
  | x :: rest =>
      match bin_step tmin range capacity bins local_histo x with
      | inl e => inl e
      | inr h => bin_loop tmin range capacity bins h rest
      end
  end.

(** Lines 141-158: the local histogram of a rank. *)
Definition local_histogram (d : Density) : failure + list nat :=
  let local_histo := repeat 0 (Z.to_nat (nb_bins d)) in
  let range := d_sub (total_max d) (total_min d) in
  let capacity := d_div range (d_of_int (nb_bins d)) in
  bin_loop (total_min d) range capacity (nb_bins d) local_histo (samples d).

(** Lines 162-171: rank 0 writes the histogram, then all ranks meet. The
    value returned is the state of the rank and the files it wrote. *)
Definition publish (d : Density) : mpi (Density * list (string * string)) :=
  bind (lift (if my_rank d =? 0
              then match dumpHistogram d with
                   | inl e => inl e
                   | inr f => inr [f]
                   end
              else inr [])) (fun files =>
  Barrier (Ret (d, files))).

(** Lines 140-171: binning, the reduction of the counts and the output. *)
Definition buildHistogram (d : Density) : mpi (Density * list (string * string)) :=
  bind (lift (local_histogram d)) (fun local_histo =>
  AllreduceSum local_histo (fun total_histo =>
  publish (set_histo d total_histo))).

Definition computeFrequencies (d : Density) : mpi (Density * list (string * string)) :=
  bind (reduceRange d) buildHistogram.




(** *** [run] (lines 198-205): the result of [loadFiles] is not looked at. *)
Definition run (d : Density) : mpi (Density * list (string * string)) :=
  let '(_, loaded) := loadFiles d in
  computeFrequencies loaded.

End Files.
End World.

Arguments Ret {Ar A} a.
Arguments Fail {Ar A} f.
Arguments AllreduceSum {Ar A} xs k.
Arguments AllreduceDouble {Ar A} op x k.
Arguments Barrier {Ar A} k.

(* ------------------------------------------------------------------ *)
(** ** The bin index as the specification words it *)




(* ------------------------------------------------------------------ *)
(** ** The histogram file in closed form *)

(** The text of the histogram file in closed form: three comment lines,
    then one line per entry of the histogram, the boundary written in the
    notation [ff] with precision 4 in a field of 10. *)
Definition data_line {Ar : Arith} (ff : Ostream.floatfield) (tmin width : double)
  (k value : nat) : string :=
  (Ostream.pad 10
     (Ostream.format_double ff 4
        (d_view (d_add tmin (d_mul (d_of_int (Z.of_nat k)) width))))
   ++ Ostream.tab ++ Ostream.dec_of_nat value ++ Ostream.newline)%string.

Fixpoint data_lines {Ar : Arith} (ff : Ostream.floatfield) (tmin width : double)
  (k : nat) (h : list nat) : string :=
  match h with
  | [] => EmptyString
  | value :: h' =>
      (data_line ff tmin width k value ++ data_lines ff tmin width (S k) h')%string
  end.

Definition header_text (bins : Z) : string :=
  ("# bins: " ++ Ostream.dec_of_Z bins ++ Ostream.newline
   ++ "# col 1: density range" ++ Ostream.newline
   ++ "# col 2: particle count" ++ Ostream.newline)%string.

Definition histogram_text {Ar : Arith} (ff : Ostream.floatfield) (d : Density)
  : string :=
  let width := d_div (d_sub (total_max d) (total_min d)) (d_of_int (nb_bins d)) in
  (header_text (nb_bins d) ++ data_lines ff (total_min d) width 1 (histo d))%string.

(** The local extrema of a rank as rationals (exact arithmetic). *)
Definition local_max_value (d : Density (Ar:=Exact)) : Q :=
  match max_element (samples d) with
  | Some x => x
  | None => 0%Q
  end.

Definition local_min_value (d : Density (Ar:=Exact)) : Q :=
  match min_element (samples d) with
  | Some x => x
  | None => 0%Q
  end.

(* ------------------------------------------------------------------ *)
(** ** Counting samples per bin, and the image of the input files *)





(** The boundary that line [k] of the histogram file shows (line 189). *)
Definition boundary {Ar : Arith} (tmin tmax : double) (N k : Z) : double :=
  d_add tmin (d_mul (d_of_int k) (d_div (d_sub tmax tmin) (d_of_int N))).

(** A rank stands at the reduction of the maxima or has failed with [e]. *)
Definition at_max_or_failed {Ar : Arith} {A : Type} (e : failure) (p : mpi A) : Prop :=
  p = Fail e \/ exists x k, p = AllreduceDouble MPI_MAX x k.

(* ------------------------------------------------------------------ *)
(** * Properties *)

(** ** Exact arithmetic: the value the cast receives *)

Module ExactFacts.


Lemma is_zero_true (q : Q) : (q == 0)%Q -> ExactOps.is_zero q = true.
Proof.
  unfold ExactOps.is_zero, Qeq. simpl. intros H.
  apply Z.eqb_eq. lia.
Qed.

Lemma Qltb_lt (p q : Q) : ExactOps.Qltb p q = true <-> (p < q)%Q.
Proof. unfold ExactOps.Qltb, Qlt. apply Z.ltb_lt. Qed.

Lemma Qltb_ge (p q : Q) : ExactOps.Qltb p q = false <-> (q <= p)%Q.
Proof. unfold ExactOps.Qltb, Qle. apply Z.ltb_ge. Qed.


Section Index.
Variables (mn mx v : Q) (N : Z).
Hypothesis Hrange : (mn < mx)%Q.
Hypothesis HN : (0 < N)%Z.
Hypothesis Hv : (mn <= v <= mx)%Q.

(** [range] as line 147 computes it, and the quotient of line 152. *)
Let range : Q := (mx + - mn)%Q.
Let value : Q := ((range * ((v + - mn) / range)) / (range / inject_Z N))%Q.

Lemma range_pos : (0 < range)%Q.
Proof. unfold range. lra. Qed.

Lemma bins_pos : (0 < inject_Z N)%Q.
Proof. change 0%Q with (inject_Z 0). rewrite <- Zlt_Qlt. exact HN. Qed.

Lemma value_simplified : (value == ((v - mn) / (mx - mn)) * inject_Z N)%Q.
Proof.
  pose proof range_pos. pose proof bins_pos.
  unfold value, range in *. field. repeat split; lra.
Qed.






Lemma floor_below_top : (v < mx)%Q -> (Qfloor value < N)%Z.
Proof.
  intros L. pose proof range_pos as H. unfold range in H.
  assert (value < inject_Z N)%Q.
  { rewrite value_simplified.
    setoid_replace (inject_Z N) with (1 * inject_Z N)%Q at 2 by ring.
    apply Qmult_lt_compat_r; [exact bins_pos|].
    apply Qlt_shift_div_r; lra. }
  pose proof (Qfloor_le value) as F.
  rewrite Zlt_Qlt. lra.
Qed.


End Index.
End ExactFacts.

(** ** Lists of counters *)





(** ** The bin of a sample (exact arithmetic) *)

Section ExactBin.
Variables (mn mx v : Q) (N : Z).
Hypothesis Hrange : (mn < mx)%Q.
Hypothesis HN : (0 < N <= INT_MAX)%Z.
Hypothesis Hv : (mn <= v <= mx)%Q.





End ExactBin.






(** ** Worlds whose ranks stand at the same call *)

Section ExecFacts.
Context {Ar : Arith}.
Context {A B : Type}.

Lemma all_ret_map (f : B -> A) (ds : list B) :
  all_ret (map (fun d => Ret (f d)) ds) = inr (map f ds).
Proof.
  induction ds as [|d ds IH]; simpl; [reflexivity|]. rewrite IH. reflexivity.
Qed.

Lemma exec_ret (f : B -> A) (ds : list B) :
  exec (map (fun d => Ret (f d)) ds) = inr (map f ds).
Proof.
  destruct ds as [|d ds]; simpl; [reflexivity|]. rewrite all_ret_map. reflexivity.
Qed.

Lemma exec_fail (e : failure) (ps : list (mpi A)) :
  exec (Fail e :: ps) = inl e.
Proof. reflexivity. Qed.

Lemma all_double_map (op : reduce_op) (g : B -> double) (K : B -> double -> mpi A)
  (ds : list B) :
  all_double op (map (fun d => AllreduceDouble op (g d) (K d)) ds)
  = inr (map (fun d => (g d, K d)) ds).
Proof.
  induction ds as [|d ds IH]; simpl; [reflexivity|].
  rewrite IH. destruct op; reflexivity.
Qed.

Lemma exec_allreduce_double (op : reduce_op) (g : B -> double)
  (K : B -> double -> mpi A) (ds : list B) :
  exec (map (fun d => AllreduceDouble op (g d) (K d)) ds)
  = exec (map (fun d => K d (reduce_all_double op (map g ds))) ds).
Proof.
  destruct ds as [|d ds]; simpl; [reflexivity|].
  rewrite all_double_map. rewrite !map_map. reflexivity.
Qed.

Lemma all_sum_map (g : B -> list nat) (K : B -> list nat -> mpi A) (ds : list B) :
  all_sum (map (fun d => AllreduceSum (g d) (K d)) ds)
  = inr (map (fun d => (g d, K d)) ds).
Proof.
  induction ds as [|d ds IH]; simpl; [reflexivity|]. rewrite IH. reflexivity.
Qed.

Lemma exec_allreduce_sum (n : nat) (g : B -> list nat)
  (K : B -> list nat -> mpi A) (ds : list B) :
  Forall (fun d => List.length (g d) = n) ds ->
  exec (map (fun d => AllreduceSum (g d) (K d)) ds)
  = exec (map (fun d => K d (reduce_all_sum (map g ds))) ds).
Proof.
  intros H. destruct ds as [|d ds]; simpl; [reflexivity|].
  rewrite all_sum_map.
  apply Forall_cons_iff in H. destruct H as [Hd Hds].
  replace (forallb _ _) with true.
  - rewrite !map_map. reflexivity.
  - symmetry. apply forallb_forall. intros c Hc.
    apply in_map_iff in Hc. destruct Hc as (d' & <- & Hin). simpl.
    rewrite Forall_forall in Hds. rewrite (Hds d' Hin), Hd. apply Nat.eqb_refl.
Qed.



End ExecFacts.

(** ** Sums of count vectors *)

Lemma vadd_length (xs ys : list nat) :
  List.length xs = List.length ys -> List.length (vadd xs ys) = List.length xs.
Proof.
  revert ys. induction xs as [|x xs IH]; intros [|y ys] H; simpl in *; try lia.
  rewrite IH; lia.
Qed.

Lemma vadd_sum (xs ys : list nat) :
  List.length xs = List.length ys ->
  list_sum (vadd xs ys) = list_sum xs + list_sum ys.
Proof.
  revert ys. induction xs as [|x xs IH]; intros [|y ys] H; simpl in *; try lia.
  rewrite IH; lia.
Qed.

Lemma reduce_sum_spec (n : nat) (xss : list (list nat)) (xs : list nat) :
  List.length xs = n -> Forall (fun ys => List.length ys = n) xss ->
  List.length (reduce_sum xs xss) = n
  /\ list_sum (reduce_sum xs xss) = list_sum xs + list_sum (map list_sum xss).
Proof.
  unfold reduce_sum. revert xs.
  induction xss as [|ys xss IH]; intros xs Hx H; simpl.
  - split; [assumption | lia].
  - apply Forall_cons_iff in H. destruct H as [Hy Hr].
    destruct (IH (vadd xs ys)) as [L S']; [rewrite vadd_length; lia | assumption |].
    split; [exact L|]. rewrite S', vadd_sum by lia. lia.
Qed.

Lemma reduce_all_sum_spec (n : nat) (xss : list (list nat)) :
  xss <> [] -> Forall (fun ys => List.length ys = n) xss ->
  List.length (reduce_all_sum xss) = n
  /\ list_sum (reduce_all_sum xss) = list_sum (map list_sum xss).
Proof.
  intros NE H. destruct xss as [|xs xss]; [congruence|].
  apply Forall_cons_iff in H. destruct H as [Hx Hr].
  simpl. apply reduce_sum_spec; assumption.
Qed.

(** ** The constructor: partition of the inputs *)

Lemma skipn_nth_error {X : Type} (l : list X) (i : nat) (x : X) :
  nth_error l i = Some x -> skipn i l = x :: skipn (S i) l.
Proof.
  revert i. induction l as [|y l IH]; intros [|i] H; simpl in *; try discriminate.
  - congruence.
  - apply IH. exact H.
Qed.

Lemma firstn_skipn_app {X : Type} (l : list X) (a n : nat) :
  firstn a l ++ firstn n (skipn a l) = firstn (a + n) l.
Proof.
  revert l. induction a as [|a IH]; intros l; simpl; [reflexivity|].
  destruct l as [|x l]; simpl.
  - rewrite firstn_nil. reflexivity.
  - rewrite IH. reflexivity.
Qed.

Lemma concat_blocks {X : Type} (l : list X) (off W : nat) :
  List.concat (map (fun r => firstn off (skipn (r * off) l)) (seq 0 W)) = firstn (W * off) l.
Proof.
  induction W as [|W IH]; [reflexivity|].
  rewrite seq_S, map_app, concat_app, IH. simpl.
  rewrite app_nil_r, firstn_skipn_app. f_equal. lia.
Qed.

Lemma concat_shards (all : list (string * nat)) (W : nat) :
  0 < W -> List.length all mod W = 0 ->
  List.concat (map (shard all W) (seq 0 W)) = all.
Proof.
  intros HW HM. unfold shard. rewrite concat_blocks.
  apply firstn_all2.
  pose proof (Nat.div_mod_eq (List.length all) W). lia.
Qed.

Lemma count_sum_concat (ls : list (list (string * nat))) :
  count_sum (List.concat ls) = list_sum (map count_sum ls).
Proof.
  unfold count_sum. induction ls as [|l ls IH]; simpl; [reflexivity|].
  rewrite map_app, list_sum_app, IH. reflexivity.
Qed.

Section Construction.
Context {Ar : Arith}.

Lemma dispatch_block (all : list (string * nat)) (r off : nat) (n a : nat) :
  a + n + r * off <= List.length all ->
  dispatch all r off (seq a n)
  = inr (firstn n (skipn (a + r * off) all),
         count_sum (firstn n (skipn (a + r * off) all))).
Proof.
  revert a. induction n as [|n IH]; intros a H; simpl; [reflexivity|].
  destruct (nth_error all (a + r * off)) as [x|] eqn:E.
  - rewrite (IH (S a)) by lia.
    rewrite (skipn_nth_error all (a + r * off) x E). simpl.
    reflexivity.
  - apply nth_error_None in E. lia.
Qed.

(** A world of [W] ranks over [T] inputs is well partitioned when
    [0 < W <= T] and [W] divides [T]; for [W = 1] that is [T >= 1]. *)
Lemma block_inside (T W r : nat) :
  0 < W -> W <= T -> T mod W = 0 -> r < W ->
  0 < T / W /\ T / W + r * (T / W) <= T.
Proof.
  intros HW HT HM Hr. pose proof (Nat.div_mod_eq T W) as E. rewrite HM in E.
  assert (0 < T / W) by (destruct (T / W); [lia | lia]).
  split; [assumption|]. nia.
Qed.

Lemma Density_new_partitioned (cfg : Config) (W r : nat) :
  0 < W -> W <= List.length (cfg_inputs cfg) ->
  List.length (cfg_inputs cfg) mod W = 0 -> r < W ->
  Density_new cfg r W
  = AllreduceSum [count_sum (shard (cfg_inputs cfg) W r)] (fun total =>
      bind (lift (assert (0 <? cfg_nb_bins cfg)%Z "nb_bins > 0")) (fun _ =>
      Ret {| my_rank := r; nb_ranks := W; inputs := shard (cfg_inputs cfg) W r;
             local_count := count_sum (shard (cfg_inputs cfg) W r);
             total_count := hd 0 total;
             density := repeat f_zero (count_sum (shard (cfg_inputs cfg) W r));
             output_plot := cfg_plots cfg; nb_bins := cfg_nb_bins cfg;
             histo := repeat 0 (Z.to_nat (cfg_nb_bins cfg));
             total_max := d_of_int 0; total_min := d_of_int 0 |})).
Proof.
  intros HW HT HM Hr.
  destruct (block_inside _ W r HW HT HM Hr) as [Hoff Hin].
  unfold Density_new.
  replace (0 <? W) with true by (symmetry; apply Nat.ltb_lt; exact HW).
  simpl bind at 1.
  replace (List.length (cfg_inputs cfg) <? W) with false
    by (symmetry; apply Nat.ltb_ge; exact HT).
  rewrite HM. simpl negb. rewrite orb_true_r.
  replace (List.length (cfg_inputs cfg) / W =? 0) with false
    by (symmetry; apply Nat.eqb_neq; lia).
  simpl.
  rewrite dispatch_block by (simpl; lia).
  simpl. reflexivity.
Qed.

Lemma hd_singleton_sum (l : list nat) : List.length l = 1 -> hd 0 l = list_sum l.
Proof. destruct l as [|x [|y l]]; simpl; intros H; try discriminate. lia. Qed.

(** The outcome of the constructors of a well-partitioned world. *)
Lemma construct_world (cfg : Config) (W : nat) :
  0 < W -> W <= List.length (cfg_inputs cfg) ->
  List.length (cfg_inputs cfg) mod W = 0 -> (0 < cfg_nb_bins cfg)%Z ->
  exec (map (fun r => Density_new cfg r W) (seq 0 W))
  = inr (map (constructed cfg W) (seq 0 W)).
Proof.
  intros HW HT HM HB.
  rewrite (map_ext_in _ _ _
             (fun r Hr => Density_new_partitioned cfg W r HW HT HM
                            (proj2 (proj1 (in_seq W 0 r) Hr)))).
  rewrite (exec_allreduce_sum 1) by (apply Forall_forall; reflexivity).
  replace (0 <? cfg_nb_bins cfg)%Z with true by (symmetry; apply Z.ltb_lt; exact HB).
  simpl bind.
  rewrite exec_ret. f_equal. apply map_ext. intros r. unfold constructed. f_equal.
  destruct (reduce_all_sum_spec 1
              (map (fun d => [count_sum (shard (cfg_inputs cfg) W d)]) (seq 0 W)))
    as [L S'].
  - destruct W; [lia | discriminate].
  - apply Forall_forall. intros l Hl. apply in_map_iff in Hl.
    destruct Hl as (? & <- & _). reflexivity.
  - rewrite (hd_singleton_sum _ L), S', map_map. simpl.
    transitivity (count_sum (List.concat (map (shard (cfg_inputs cfg) W) (seq 0 W)))).
    + rewrite count_sum_concat, map_map.
      f_equal. apply map_ext. intros a. lia.
    + rewrite (concat_shards (cfg_inputs cfg) W HW HM). reflexivity.
Qed.

End Construction.

Lemma block_of_index (T W j : nat) :
  0 < W -> T mod W = 0 -> j < T ->
  exists r, r < W
            /\ r * (T / W) <= j < (r + 1) * (T / W)
            /\ forall r', r' * (T / W) <= j < (r' + 1) * (T / W) -> r' = r.
Proof.
  intros HW HM Hj. pose proof (Nat.div_mod_eq T W) as E. rewrite HM in E.
  set (off := T / W) in *.
  assert (Hoff : 0 < off) by (destruct off; lia).
  pose proof (Nat.div_mod_eq j off) as Ej.
  pose proof (Nat.mod_upper_bound j off ltac:(lia)) as Bj.
  exists (j / off). split; [|split].
  - apply Nat.Div0.div_lt_upper_bound. lia.
  - nia.
  - intros r' [L U]. nia.
Qed.

(** C8: when [W] divides the number [T] of inputs and [T >= W], the
    constructors succeed (for a positive bin count), rank [r] holds the inputs
    of indices [r * (T/W)] up to [(r+1) * (T/W)], the blocks in rank order
    make up the configured list, and every index lies in one block only. *)
Theorem partition_complete {Ar : Arith} (cfg : Config) (W : nat) :
  0 < W -> W <= List.length (cfg_inputs cfg) ->
  List.length (cfg_inputs cfg) mod W = 0 -> (0 < cfg_nb_bins cfg)%Z ->
  let T := List.length (cfg_inputs cfg) in
  exists ds,
    exec (map (fun r => Density_new cfg r W) (seq 0 W)) = inr ds
    /\ List.length ds = W
    /\ (forall r, r < W ->
          exists d, nth_error ds r = Some d
                    /\ my_rank d = r
                    /\ inputs d = firstn (T / W) (skipn (r * (T / W)) (cfg_inputs cfg)))
    /\ List.concat (map inputs ds) = cfg_inputs cfg
    /\ (forall j, j < T ->
          exists r, r < W
                    /\ r * (T / W) <= j < (r + 1) * (T / W)
                    /\ forall r', r' * (T / W) <= j < (r' + 1) * (T / W) -> r' = r).
Proof.
  intros HW HT HM HB T.
  exists (map (constructed cfg W) (seq 0 W)).
  split; [apply construct_world; assumption|].
  split; [rewrite length_map, length_seq; reflexivity|].
  split; [|split].
  - intros r Hr. exists (constructed cfg W r). split; [|split; reflexivity].
    rewrite nth_error_map, nth_error_seq.
    replace (r <? W) with true by (symmetry; apply Nat.ltb_lt; exact Hr).
    reflexivity.
  - rewrite map_map. simpl. apply concat_shards; assumption.
  - intros j Hj. apply block_of_index; assumption.
Qed.

Lemma partition_complete_witness :
  exists ds,
    exec (map (fun r => Density_new (Ar:=Exact)
                          {| cfg_inputs := [("a", 3); ("b", 2); ("c", 1); ("d", 4)]%string;
                             cfg_nb_bins := 5; cfg_plots := "out" |} r 2) (seq 0 2))
    = inr ds
    /\ map inputs ds = [[("a", 3); ("b", 2)]; [("c", 1); ("d", 4)]]%string.
Proof.
  destruct (partition_complete (Ar:=Exact)
              {| cfg_inputs := [("a", 3); ("b", 2); ("c", 1); ("d", 4)]%string;
                 cfg_nb_bins := 5; cfg_plots := "out" |} 2)
    as (ds & E & _).
  - simpl. lia.
  - simpl. lia.
  - reflexivity.
  - reflexivity.
  - exists ds. split; [exact E|].
    simpl in E. injection E as <-. reflexivity.
Defined.

(** C7, as amended: with more than one rank, a number of inputs that is
    smaller than the number of ranks or not a multiple of it makes every
    constructor throw before its first collective call, so no object exists
    to load files with; one rank with at least one input (and a positive bin
    count) is constructed with the whole list. *)
Theorem partition_rejected {Ar : Arith} (cfg : Config) (W : nat) :
  (1 < W ->
   List.length (cfg_inputs cfg) < W \/ List.length (cfg_inputs cfg) mod W <> 0 ->
   (forall r, Density_new cfg r W = Fail (RuntimeError mismatch_message))
   /\ exec (map (fun r => Density_new cfg r W) (seq 0 W))
      = inl (RuntimeError mismatch_message))
  /\ (1 <= List.length (cfg_inputs cfg) -> (0 < cfg_nb_bins cfg)%Z ->
      exists d, exec [Density_new cfg 0 1] = inr [d]
                /\ my_rank d = 0
                /\ inputs d = cfg_inputs cfg).
Proof.
  split.
  - intros HW HT.
    assert (R : forall r, Density_new cfg r W = Fail (RuntimeError mismatch_message)).
    { intros r. unfold Density_new.
      replace (0 <? W) with true by (symmetry; apply Nat.ltb_lt; lia).
      simpl bind at 1.
      replace (W =? 1) with false by (symmetry; apply Nat.eqb_neq; lia).
      replace ((List.length (cfg_inputs cfg) <? W)
               || negb (List.length (cfg_inputs cfg) mod W =? 0)) with true.
      - reflexivity.
      - symmetry. apply orb_true_iff. destruct HT as [HT | HT].
        + left. apply Nat.ltb_lt. exact HT.
        + right. apply negb_true_iff, Nat.eqb_neq. exact HT. }
    split; [exact R|].
    destruct W as [|W]; [lia|]. simpl. rewrite R. reflexivity.
  - intros HT HB. exists (constructed cfg 1 0).
    split; [|split].
    + apply (construct_world cfg 1); [lia | lia | apply Nat.mod_1_r | exact HB].
    + reflexivity.
    + unfold constructed. cbn [inputs]. unfold shard.
      rewrite Nat.div_1_r, Nat.mul_0_l. apply firstn_all.
Qed.

Lemma partition_rejected_witness :
  exec (map (fun r => Density_new (Ar:=Exact)
                        {| cfg_inputs := [("a", 3); ("b", 2); ("c", 1)]%string;
                           cfg_nb_bins := 5; cfg_plots := "out" |} r 2) (seq 0 2))
  = inl (RuntimeError mismatch_message).
Proof.
  refine (proj2 (proj1 (partition_rejected (Ar:=Exact) _ 2) _ _)).
  - lia.
  - right. discriminate.
Defined.

(** C7, as stated, fails for one rank and an empty list of inputs: the
    block size is 0 and [assert(offset)] stops the constructor. *)
Lemma single_rank_empty_inputs :
  exec [Density_new (Ar:=Exact)
          {| cfg_inputs := []; cfg_nb_bins := 5; cfg_plots := "out" |} 0 1]
  = inl (AssertionFailed "offset").
Proof. vm_compute. reflexivity. Qed.

(** ** [loadFiles] *)

Lemma firstn_exact_app {X : Type} (a b : list X) (n : nat) :
  List.length a = n -> firstn n (a ++ b) = a.
Proof.
  intros <-. rewrite firstn_app, Nat.sub_diag, firstn_all. simpl. apply app_nil_r.
Qed.

Lemma skipn_past_app {X : Type} (a b : list X) (n k : nat) :
  List.length a = n -> skipn (n + k) (a ++ b) = skipn k b.
Proof.
  intros <-. rewrite skipn_app, skipn_all2 by lia.
  simpl. f_equal. lia.
Qed.

Section Loading.
Context {Ar : Arith}.
Variable fs : FileSystem.

Lemma write_at_length (buf data : list float32) (offset : nat) :
  offset + List.length data <= List.length buf ->
  List.length (write_at buf offset data) = List.length buf.
Proof.
  intros H. unfold write_at.
  rewrite !length_app, length_firstn, length_skipn. lia.
Qed.

Lemma load_loop_length (ins : list (string * nat)) (offset : nat) (buf : list float32) :
  offset + count_sum ins <= List.length buf ->
  List.length (snd (load_loop fs ins offset buf)) = List.length buf.
Proof.
  revert offset buf. induction ins as [|[path count] ins IH]; intros offset buf H.
  - reflexivity.
  - simpl. unfold count_sum in H. simpl in H. fold (count_sum ins) in H.
    destruct (read_file fs path) as [content|]; [|reflexivity].
    assert (L : List.length (write_at buf offset (firstn count content)) = List.length buf).
    { apply write_at_length. rewrite length_firstn. lia. }
    rewrite IH; [exact L|]. rewrite L. lia.
Qed.

Lemma load_loop_opened (ins : list (string * nat)) (offset : nat) (buf : list float32) :
  fst (load_loop fs ins offset buf) = false
  <-> exists path count, In (path, count) ins /\ read_file fs path = None.
Proof.
  revert offset buf. induction ins as [|[path count] ins IH]; intros offset buf; simpl.
  - split; [discriminate | intros (? & ? & [] & _)].
  - destruct (read_file fs path) as [content|] eqn:E.
    + rewrite IH. split.
      * intros (p & c & Hin & Hp). exists p, c. split; [right; exact Hin | exact Hp].
      * intros (p & c & [Heq | Hin] & Hp).
        -- injection Heq as <- <-. congruence.
        -- exists p, c. split; assumption.
    + split; [|reflexivity]. intros _. exists path, count. split; [left; reflexivity | exact E].
Qed.

Lemma load_loop_filled (ins : list (string * nat)) (offset : nat) (buf : list float32) :
  offset + count_sum ins <= List.length buf ->
  (forall path count, In (path, count) ins ->
     exists content, read_file fs path = Some content /\ count <= List.length content) ->
  snd (load_loop fs ins offset buf)
  = firstn offset buf ++ List.concat (map (chunk fs) ins) ++ skipn (offset + count_sum ins) buf.
Proof.
  revert offset buf. induction ins as [|[path count] ins IH]; intros offset buf H Hall.
  - simpl. unfold count_sum. simpl. rewrite Nat.add_0_r, firstn_skipn. reflexivity.
  - unfold count_sum in H. simpl in H. fold (count_sum ins) in H.
    destruct (Hall path count (or_introl eq_refl)) as (content & E & Hc).
    simpl. rewrite E.
    assert (Lc : List.length (firstn count content) = count)
      by (rewrite length_firstn; lia).
    rewrite IH.
    + unfold chunk at 2. simpl. rewrite E.
      unfold count_sum. simpl. fold (count_sum ins).
      unfold write_at. rewrite Lc.
      set (data := firstn count content) in *.
      assert (Lf : List.length (firstn offset buf ++ data) = offset + count)
        by (rewrite length_app, length_firstn; lia).
      rewrite (app_assoc (firstn offset buf) data).
      rewrite (firstn_exact_app _ _ _ Lf).
      rewrite (skipn_past_app _ _ _ (count_sum ins) Lf).
      rewrite skipn_skipn, <- !app_assoc.
      replace (count_sum ins + (offset + count)) with (offset + (count + count_sum ins))
        by lia.
      reflexivity.
    + rewrite write_at_length by lia. lia.
    + intros p c Hin. apply Hall. right. exact Hin.
Qed.

End Loading.

(** C6, as amended: [loadFiles] returns [false] exactly when one of the
    inputs of the rank cannot be opened or the buffer is empty; the number of
    bytes a read delivers is not looked at. When every input can be opened
    and holds its declared count, the buffer is the samples of the inputs,
    one input after the other in the order of the list. *)
Theorem loadFiles_result {Ar : Arith} (fs : FileSystem) (d : Density) :
  List.length (density d) = count_sum (inputs d) ->
  (fst (loadFiles fs d) = false
   <-> (exists path count, In (path, count) (inputs d) /\ read_file fs path = None)
       \/ density (snd (loadFiles fs d)) = [])
  /\ ((forall path count, In (path, count) (inputs d) ->
         exists content, read_file fs path = Some content /\ count <= List.length content) ->
      density (snd (loadFiles fs d)) = List.concat (map (chunk fs) (inputs d))
      /\ fst (loadFiles fs d) = negb (is_empty (density d))).
Proof.
  intros HL.
  pose proof (load_loop_opened fs (inputs d) 0 (density d)) as HO.
  pose proof (load_loop_length fs (inputs d) 0 (density d) ltac:(simpl; lia)) as HLen.
  unfold loadFiles.
  destruct (load_loop fs (inputs d) 0 (density d)) as [opened buf] eqn:E.
  simpl in HO, HLen. simpl. split.
  - split.
    + destruct opened.
      * intros H. right. destruct buf; [reflexivity | discriminate].
      * intros _. left. apply HO. reflexivity.
    + intros [H | H].
      * apply HO in H. rewrite H. reflexivity.
      * rewrite H. destruct opened; reflexivity.
  - intros Hall.
    pose proof (load_loop_filled fs (inputs d) 0 (density d) ltac:(simpl; lia) Hall) as HF.
    rewrite E in HF. simpl in HF.
    rewrite skipn_all2 in HF by lia. rewrite app_nil_r in HF.
    split; [exact HF|].
    destruct opened.
    + f_equal. destruct buf, (density d); simpl in *; try reflexivity; discriminate.
    + exfalso. destruct (proj1 HO eq_refl) as (p & c & Hin & Hn).
      destruct (Hall p c Hin) as (? & Hs & _). congruence.
Qed.

Lemma loadFiles_result_witness :
  fst (loadFiles (Ar:=Exact)
         {| read_file := fun p => if String.eqb p "a" then Some [1%Q; 2%Q; 3%Q] else None;
            can_write := fun _ => true |}
         (constructed {| cfg_inputs := [("a"%string, 3)]; cfg_nb_bins := 5;
                         cfg_plots := "out" |} 1 0))
  = true.
Proof.
  refine (eq_trans (proj2 (proj2 (loadFiles_result (Ar:=Exact) _ _ _) _)) _).
  - reflexivity.
  - intros path count [H | []]. injection H as <- <-.
    exists [1%Q; 2%Q; 3%Q]. split; [reflexivity | simpl; lia].
  - reflexivity.
Defined.

(** C6, as stated, fails on a short read: the input declares 3 samples, the
    file holds 2, and [loadFiles] returns [true] with the third sample left
    as [resize] made it. *)
Lemma short_read_returns_success :
  let fs : FileSystem (Ar:=Exact) :=
    {| read_file := fun p => if String.eqb p "a" then Some [1%Q; 2%Q] else None;
       can_write := fun _ => true |} in
  let d := constructed {| cfg_inputs := [("a"%string, 3)]; cfg_nb_bins := 5;
                          cfg_plots := "out" |} 1 0 in
  (exists content, read_file fs "a" = Some content /\ List.length content < 3)
  /\ inputs d = [("a"%string, 3)]
  /\ fst (loadFiles fs d) = true
  /\ density (snd (loadFiles fs d)) = [1%Q; 2%Q; 0%Q].
Proof.
  split.
  - exists [1%Q; 2%Q]. split; [reflexivity | simpl; lia].
  - repeat split; reflexivity.
Qed.

(** ** The reduction of the extrema *)

Section RangeReduction.
Context {Ar : Arith}.

Lemma samples_nonempty (d : Density) : samples d <> [] -> local_count d <> 0.
Proof. unfold samples. intros H E. rewrite E in H. apply H. reflexivity. Qed.

(** Past its asserts a rank stands at the reduction of the maxima, then at
    that of the minima, and stores what they return. *)
Lemma reduceRange_bind {X : Type} (d : Density) (K : Density -> mpi X) :
  total_count d <> 0 -> samples d <> [] ->
  bind (reduceRange d) K
  = AllreduceDouble MPI_MAX (local_max d) (fun tmax =>
    AllreduceDouble MPI_MIN (local_min d) (fun tmin =>
    K (set_extents d tmax tmin))).
Proof.
  intros HT HS. pose proof (samples_nonempty d HS) as HLc.
  unfold reduceRange, local_max, local_min.
  replace (local_count d =? 0) with false by (symmetry; apply Nat.eqb_neq; exact HLc).
  replace (total_count d =? 0) with false by (symmetry; apply Nat.eqb_neq; exact HT).
  destruct (samples d) as [|x l]; [congruence|]. reflexivity.
Qed.

Lemma reduceRange_ready (d : Density) :
  total_count d <> 0 -> samples d <> [] ->
  reduceRange d
  = AllreduceDouble MPI_MAX (local_max d) (fun tmax =>
    AllreduceDouble MPI_MIN (local_min d) (fun tmin =>
    Ret (set_extents d tmax tmin))).
Proof.
  intros HT HS. pose proof (samples_nonempty d HS) as HLc.
  unfold reduceRange, local_max, local_min.
  replace (local_count d =? 0) with false by (symmetry; apply Nat.eqb_neq; exact HLc).
  replace (total_count d =? 0) with false by (symmetry; apply Nat.eqb_neq; exact HT).
  destruct (samples d) as [|x l]; [congruence|]. reflexivity.
Qed.

(** Every rank leaves the two reductions with the same pair. *)
Lemma exec_reduceRange_bind {X : Type} (K : Density -> mpi X) (ds : list Density) :
  Forall ready ds ->
  exec (map (fun d => bind (reduceRange d) K) ds)
  = exec (map (fun d => K (set_extents d
                             (reduce_all_double MPI_MAX (map local_max ds))
                             (reduce_all_double MPI_MIN (map local_min ds)))) ds).
Proof.
  intros H. rewrite Forall_forall in H.
  rewrite (map_ext_in _ _ _
             (fun d Hd => reduceRange_bind d K (proj1 (H d Hd)) (proj2 (H d Hd)))).
  rewrite (exec_allreduce_double MPI_MAX local_max).
  rewrite (exec_allreduce_double MPI_MIN local_min).
  reflexivity.
Qed.

Lemma exec_reduceRange (ds : list Density) :
  Forall ready ds ->
  exec (map reduceRange ds)
  = inr (map (fun d => set_extents d
                         (reduce_all_double MPI_MAX (map local_max ds))
                         (reduce_all_double MPI_MIN (map local_min ds))) ds).
Proof.
  intros H. rewrite Forall_forall in H.
  rewrite (map_ext_in _ _ _
             (fun d Hd => reduceRange_ready d (proj1 (H d Hd)) (proj2 (H d Hd)))).
  rewrite (exec_allreduce_double MPI_MAX local_max).
  rewrite (exec_allreduce_double MPI_MIN local_min).
  apply exec_ret.
Qed.

End RangeReduction.

(** *** Extrema over the rationals *)

Module Extrema.

Lemma max_from_spec (l : list Q) (a : Q) :
  In (max_from (Ar:=Exact) a l) (a :: l)
  /\ Forall (fun x => (x <= max_from (Ar:=Exact) a l)%Q) (a :: l).
Proof.
  revert a. induction l as [|x l IH]; intros a; simpl.
  - split; [left; reflexivity | constructor; [apply Qle_refl | constructor]].
  - destruct (ExactOps.Qltb a x) eqn:E.
    + apply ExactFacts.Qltb_lt in E. destruct (IH x) as [I F]. split.
      * right. exact I.
      * apply Forall_cons_iff in F. destruct F as [Fx Fl].
        constructor; [lra | constructor; assumption].
    + apply ExactFacts.Qltb_ge in E. destruct (IH a) as [I F]. split.
      * destruct I as [I | I]; [left; exact I | right; right; exact I].
      * apply Forall_cons_iff in F. destruct F as [Fa Fl].
        constructor; [exact Fa | constructor; [lra | exact Fl]].
Qed.

Lemma min_from_spec (l : list Q) (a : Q) :
  In (min_from (Ar:=Exact) a l) (a :: l)
  /\ Forall (fun x => (min_from (Ar:=Exact) a l <= x)%Q) (a :: l).
Proof.
  revert a. induction l as [|x l IH]; intros a; simpl.
  - split; [left; reflexivity | constructor; [apply Qle_refl | constructor]].
  - destruct (ExactOps.Qltb x a) eqn:E.
    + apply ExactFacts.Qltb_lt in E. destruct (IH x) as [I F]. split.
      * right. exact I.
      * apply Forall_cons_iff in F. destruct F as [Fx Fl].
        constructor; [lra | constructor; assumption].
    + apply ExactFacts.Qltb_ge in E. destruct (IH a) as [I F]. split.
      * destruct I as [I | I]; [left; exact I | right; right; exact I].
      * apply Forall_cons_iff in F. destruct F as [Fa Fl].
        constructor; [exact Fa | constructor; [lra | exact Fl]].
Qed.

(** [MPI_MAX] and [MPI_MIN] over finite contributions. *)
Lemma reduce_max_spec (l : list Q) (a : Q) :
  exists M, reduce_double (Ar:=Exact) MPI_MAX (Fin a) (map Fin l) = Fin M
            /\ In M (a :: l) /\ Forall (fun x => (x <= M)%Q) (a :: l).
Proof.
  unfold reduce_double. revert a. induction l as [|x l IH]; intros a; simpl.
  - exists a. split; [reflexivity|]. split; [left; reflexivity|].
    constructor; [apply Qle_refl | constructor].
  - unfold d_max at 2. simpl. destruct (ExactOps.Qltb a x) eqn:E.
    + apply ExactFacts.Qltb_lt in E. destruct (IH x) as (M & R & I & F).
      exists M. split; [exact R|]. split; [right; exact I|].
      apply Forall_cons_iff in F. destruct F as [Fx Fl].
      constructor; [lra | constructor; assumption].
    + apply ExactFacts.Qltb_ge in E. destruct (IH a) as (M & R & I & F).
      exists M. split; [exact R|]. split.
      * destruct I as [I | I]; [left; exact I | right; right; exact I].
      * apply Forall_cons_iff in F. destruct F as [Fa Fl].
        constructor; [exact Fa | constructor; [lra | exact Fl]].
Qed.

Lemma reduce_min_spec (l : list Q) (a : Q) :
  exists m, reduce_double (Ar:=Exact) MPI_MIN (Fin a) (map Fin l) = Fin m
            /\ In m (a :: l) /\ Forall (fun x => (m <= x)%Q) (a :: l).
Proof.
  unfold reduce_double. revert a. induction l as [|x l IH]; intros a; simpl.
  - exists a. split; [reflexivity|]. split; [left; reflexivity|].
    constructor; [apply Qle_refl | constructor].
  - unfold d_min at 2. simpl. destruct (ExactOps.Qltb x a) eqn:E.
    + apply ExactFacts.Qltb_lt in E. destruct (IH x) as (m & R & I & F).
      exists m. split; [exact R|]. split; [right; exact I|].
      apply Forall_cons_iff in F. destruct F as [Fx Fl].
      constructor; [lra | constructor; assumption].
    + apply ExactFacts.Qltb_ge in E. destruct (IH a) as (m & R & I & F).
      exists m. split; [exact R|]. split.
      * destruct I as [I | I]; [left; exact I | right; right; exact I].
      * apply Forall_cons_iff in F. destruct F as [Fa Fl].
        constructor; [exact Fa | constructor; [lra | exact Fl]].
Qed.

End Extrema.

(** *** The extrema of a world (exact arithmetic) *)

Section ExactRange.

Lemma local_max_exact (d : Density (Ar:=Exact)) : local_max d = Fin (local_max_value d).
Proof. unfold local_max, local_max_value. destruct (max_element (samples d)); reflexivity. Qed.

Lemma local_min_exact (d : Density (Ar:=Exact)) : local_min d = Fin (local_min_value d).
Proof. unfold local_min, local_min_value. destruct (min_element (samples d)); reflexivity. Qed.

Lemma local_max_value_spec (d : Density (Ar:=Exact)) :
  samples d <> [] ->
  In (local_max_value d) (samples d)
  /\ Forall (fun x => (x <= local_max_value d)%Q) (samples d).
Proof.
  unfold local_max_value. destruct (samples d) as [|a l]; [congruence|]. intros _.
  simpl. apply Extrema.max_from_spec.
Qed.

Lemma local_min_value_spec (d : Density (Ar:=Exact)) :
  samples d <> [] ->
  In (local_min_value d) (samples d)
  /\ Forall (fun x => (local_min_value d <= x)%Q) (samples d).
Proof.
  unfold local_min_value. destruct (samples d) as [|a l]; [congruence|]. intros _.
  simpl. apply Extrema.min_from_spec.
Qed.

Lemma in_all_samples (ds : list (Density (Ar:=Exact))) (x : Q) :
  In x (all_samples ds) <-> exists d, In d ds /\ In x (samples d).
Proof.
  unfold all_samples. rewrite in_concat. split.
  - intros (l & Hl & Hx). apply in_map_iff in Hl. destruct Hl as (d & <- & Hd).
    exists d. split; assumption.
  - intros (d & Hd & Hx). exists (samples d). split; [apply in_map; exact Hd | exact Hx].
Qed.

Lemma global_extrema (ds : list (Density (Ar:=Exact))) :
  ds <> [] -> Forall (fun d => samples d <> []) ds ->
  exists m M : Q,
    reduce_all_double MPI_MAX (map local_max ds) = Fin M
    /\ reduce_all_double MPI_MIN (map local_min ds) = Fin m
    /\ In m (all_samples ds) /\ In M (all_samples ds)
    /\ Forall (fun x => (m <= x <= M)%Q) (all_samples ds).
Proof.
  intros NE HS. rewrite Forall_forall in HS.
  destruct ds as [|d0 ds]; [congruence|].
  rewrite (map_ext _ _ local_max_exact), (map_ext _ _ local_min_exact).
  simpl map. unfold reduce_all_double.
  rewrite <- (map_map local_max_value Fin), <- (map_map local_min_value Fin).
  destruct (Extrema.reduce_max_spec (map local_max_value ds) (local_max_value d0))
    as (M & RM & IM & FM).
  destruct (Extrema.reduce_min_spec (map local_min_value ds) (local_min_value d0))
    as (m & Rm & Im & Fm).
  exists m, M. split; [exact RM|]. split; [exact Rm|].
  change (local_max_value d0 :: map local_max_value ds)
    with (map local_max_value (d0 :: ds)) in IM, FM.
  change (local_min_value d0 :: map local_min_value ds)
    with (map local_min_value (d0 :: ds)) in Im, Fm.
  rewrite Forall_forall in FM, Fm.
  split; [|split].
  - apply in_map_iff in Im. destruct Im as (d & <- & Hd).
    apply in_all_samples. exists d. split; [exact Hd|].
    apply local_min_value_spec, HS, Hd.
  - apply in_map_iff in IM. destruct IM as (d & <- & Hd).
    apply in_all_samples. exists d. split; [exact Hd|].
    apply local_max_value_spec, HS, Hd.
  - apply Forall_forall. intros x Hx. apply in_all_samples in Hx.
    destruct Hx as (d & Hd & Hx).
    destruct (local_min_value_spec d (HS d Hd)) as [_ Lo].
    destruct (local_max_value_spec d (HS d Hd)) as [_ Hi].
    rewrite Forall_forall in Lo, Hi.
    pose proof (Fm (local_min_value d) (in_map _ _ _ Hd)).
    pose proof (FM (local_max_value d) (in_map _ _ _ Hd)).
    pose proof (Lo x Hx). pose proof (Hi x Hx). split; lra.
Qed.

End ExactRange.



(** ** Binning and the reduction of the counts *)

Section Histogram.
Context {Ar : Arith}.
Variable fs : FileSystem.





End Histogram.

(** *** The local histogram over exact arithmetic *)

Section ExactHistogram.
Variables (m M : Q) (N : Z).
Hypothesis Hrange : (m < M)%Q.
Hypothesis HN : (0 < N <= INT_MAX)%Z.



End ExactHistogram.



(** *** From the constructor to the histogram *)

Section EndToEnd.
Context {Ar : Arith}.
Variable fs : FileSystem.



Lemma sum_local_counts (cfg : Config) (W : nat) :
  0 < W -> List.length (cfg_inputs cfg) mod W = 0 ->
  list_sum (map local_count (map (constructed cfg W) (seq 0 W)))
  = count_sum (cfg_inputs cfg).
Proof.
  intros HW HM. rewrite map_map. cbn [constructed local_count].
  transitivity (count_sum (List.concat (map (shard (cfg_inputs cfg) W) (seq 0 W)))).
  - rewrite count_sum_concat, map_map. reflexivity.
  - rewrite (concat_shards (cfg_inputs cfg) W HW HM). reflexivity.
Qed.

End EndToEnd.



(** ** The writer *)

Lemma append_assoc (a b c : string) : ((a ++ b) ++ c = a ++ (b ++ c))%string.
Proof. induction a as [|x a IH]; simpl; [reflexivity | rewrite IH; reflexivity]. Qed.

Lemma append_nil_r (a : string) : (a ++ "")%string = a.
Proof. induction a as [|x a IH]; simpl; [reflexivity | rewrite IH; reflexivity]. Qed.

Section Writer.
Context {Ar : Arith}.

(** One turn of the loop appends one line in the notation of the stream
    and leaves the notation as it was. *)
Lemma dump_line_text (tmin width : double) (o : Ostream.t) (k value : nat) :
  Ostream.text (dump_line tmin width o (Z.of_nat k) value)
  = (Ostream.text o ++ data_line (Ostream.notation o) tmin width k value)%string
  /\ Ostream.notation (dump_line tmin width o (Z.of_nat k) value) = Ostream.notation o.
Proof.
  unfold dump_line, data_line, Ostream.endl, Ostream.put_long, Ostream.put_double,
    Ostream.put, Ostream.setprecision, Ostream.setw.
  simpl. split; [|reflexivity].
  rewrite !append_assoc. reflexivity.
Qed.

Lemma dump_loop_text (tmin width : double) (h : list nat) (o : Ostream.t) (k : nat) :
  Ostream.text (dump_loop tmin width o (Z.of_nat k) h)
  = (Ostream.text o ++ data_lines (Ostream.notation o) tmin width k h)%string.
Proof.
  revert o k. induction h as [|value h IH]; intros o k; simpl.
  - rewrite append_nil_r. reflexivity.
  - replace (Z.of_nat k + 1)%Z with (Z.of_nat (S k)) by lia.
    destruct (dump_line_text tmin width o k value) as [T F].
    rewrite IH, T, F, append_assoc. reflexivity.
Qed.

Lemma dump_header_text (bins : Z) :
  Ostream.text (dump_header bins) = header_text bins
  /\ Ostream.notation (dump_header bins) = Ostream.ff_general.
Proof.
  unfold dump_header, header_text, Ostream.endl, Ostream.put, Ostream.fresh.
  simpl. split; [|reflexivity].
  rewrite !append_assoc. reflexivity.
Qed.

Lemma dumpHistogram_text (fs : FileSystem) (d : Density) :
  can_write fs (output_plot d ++ ".dat")%string = true ->
  dumpHistogram fs d
  = inr ((output_plot d ++ ".dat")%string, histogram_text Ostream.ff_general d).
Proof.
  intros HW. unfold dumpHistogram, histogram_text. rewrite HW. simpl.
  destruct (dump_header_text (nb_bins d)) as [T F].
  rewrite (dump_loop_text _ _ (histo d) (dump_header (nb_bins d)) 1), T, F.
  reflexivity.
Qed.

End Writer.

(** C9, as amended: rank 0, and no other rank, writes the file
    [<output_plot>.dat] anew: three comment lines, then one line for each of
    the entries of the histogram in order, the [k]-th with the boundary
    [total_min + k * width] in the default notation of the stream (precision
    4, so 4 significant digits, in a field of 10), a tab and the count. *)
Theorem histogram_file_format {Ar : Arith} (fs : FileSystem) (d : Density) :
  (my_rank d = 0 ->
   can_write fs (output_plot d ++ ".dat")%string = true ->
   publish fs d
   = Barrier (Ret (d, [((output_plot d ++ ".dat")%string,
                       histogram_text Ostream.ff_general d)])))
  /\ (my_rank d <> 0 -> publish fs d = Barrier (Ret (d, []))).
Proof.
  split.
  - intros H0 HW. unfold publish. rewrite H0. simpl.
    rewrite (dumpHistogram_text fs d HW). reflexivity.
  - intros H0. unfold publish.
    replace (my_rank d =? 0) with false by (symmetry; apply Nat.eqb_neq; exact H0).
    reflexivity.
Qed.

Lemma histogram_file_format_witness :
  let fs := @Build_FileSystem Exact (fun _ => None) (fun _ => true) in
  let d := @Build_Density Exact 0 1 [] 2 2 [0%Q; 4%Q] "out" 2 [1; 1] (Fin 4) (Fin 0) in
  publish fs d
  = Barrier (Ret (d, [("out.dat"%string, histogram_text Ostream.ff_general d)])).
Proof.
  intros fs d.
  refine (proj1 (histogram_file_format (Ar:=Exact) fs d) _ _); reflexivity.
Defined.

(** C9, as stated, fails on the notation: for the extrema 0 and 4 and 5
    bins of one sample each (two ranks holding 0, 1, 2 and 3, 4) rank 0
    writes the boundaries as [0.8], [1.6], [2.4], [3.2] and [4], not with
    four decimals, and rank 1 writes nothing. *)
Lemma writer_notation_is_not_fixed :
  let nl := Ostream.newline in
  let tab := Ostream.tab in
  let cfg := {| cfg_inputs := [("a", 3); ("b", 2)]%string; cfg_nb_bins := 5;
                cfg_plots := "out" |} in
  let fs := @Build_FileSystem Binary64
              (fun p => if String.eqb p "a" then Some [0%float; 1%float; 2%float]
                        else if String.eqb p "b" then Some [3%float; 4%float]
                        else None)
              (fun _ => true) in
  let head := ("# bins: 5" ++ nl ++ "# col 1: density range" ++ nl
               ++ "# col 2: particle count" ++ nl)%string in
  let written_text :=
    (head ++ "       0.8" ++ tab ++ "1" ++ nl ++ "       1.6" ++ tab ++ "1" ++ nl
     ++ "       2.4" ++ tab ++ "1" ++ nl ++ "       3.2" ++ tab ++ "1" ++ nl
     ++ "         4" ++ tab ++ "1" ++ nl)%string in
  let fixed_text :=
    (head ++ "    0.8000" ++ tab ++ "1" ++ nl ++ "    1.6000" ++ tab ++ "1" ++ nl
     ++ "    2.4000" ++ tab ++ "1" ++ nl ++ "    3.2000" ++ tab ++ "1" ++ nl
     ++ "    4.0000" ++ tab ++ "1" ++ nl)%string in
  match exec (map (run fs) (map (constructed (Ar:=Binary64) cfg 2) [0; 1])) with
  | inr [(d0, files0); (d1, files1)] =>
      files0 = [("out.dat"%string, written_text)]
      /\ files1 = []
      /\ histo d0 = [1; 1; 1; 1; 1]
      /\ histogram_text Ostream.ff_fixed d0 = fixed_text
      /\ written_text <> fixed_text
  | _ => False
  end.
Proof. vm_compute. repeat split; try reflexivity. discriminate. Qed.

(** ** A range of one value *)

Lemma degenerate_raw_index (m M x : Q) (capacity : ext) :
  (m == M)%Q -> (x == m)%Q ->
  raw_index (Ar:=Exact) (Fin m) (ExactOps.sub (Fin M) (Fin m)) capacity x = None.
Proof.
  intros E1 E2. unfold raw_index, static_cast_int. simpl.
  rewrite (ExactFacts.is_zero_true (M + - m)%Q) by lra.
  rewrite (ExactFacts.is_zero_true (x + - m)%Q) by lra.
  destruct capacity; reflexivity.
Qed.

Lemma degenerate_local_histogram (d : Density (Ar:=Exact)) (m M : Q) :
  (m == M)%Q -> total_min d = Fin m -> total_max d = Fin M ->
  samples d <> [] -> Forall (fun x => (x == m)%Q) (samples d) ->
  local_histogram d = inl (UndefinedBehaviour "static_cast<int>").
Proof.
  intros E Em EM NE HF. unfold local_histogram. rewrite Em, EM.
  destruct (samples d) as [|x l]; [congruence|].
  apply Forall_cons_iff in HF. destruct HF as [Hx _].
  cbn [bin_loop]. unfold bin_step.
  rewrite (degenerate_raw_index m M x _ E Hx). reflexivity.
Qed.

(** C4, as amended: when all samples have one value the two reductions
    return it as the maximum and the minimum, nothing looks at the range, and
    every rank goes on to the binning pass, where the index of the first
    sample is the cast of [0/0]; no exception is raised. *)
Theorem degenerate_range_not_detected (fs : FileSystem (Ar:=Exact))
  (ds : list (Density (Ar:=Exact))) (v : Q) :
  ds <> [] -> Forall ready ds ->
  Forall (fun x => (x == v)%Q) (all_samples ds) ->
  exists m M : Q,
    (m == M)%Q
    /\ exec (map reduceRange ds)
       = inr (map (fun d => @set_extents Exact d (Fin M) (Fin m)) ds)
    /\ exec (map (computeFrequencies fs) ds)
       = exec (map (fun d => buildHistogram fs (@set_extents Exact d (Fin M) (Fin m))) ds)
    /\ exec (map (computeFrequencies fs) ds)
       = inl (UndefinedBehaviour "static_cast<int>").
Proof.
  intros NE HR HV.
  destruct (global_extrema ds NE) as (m & M & RM & Rm & Im & IM & FA).
  { apply Forall_forall. intros d Hd. rewrite Forall_forall in HR. apply (HR d Hd). }
  rewrite Forall_forall in HV.
  pose proof (HV m Im) as Hm. pose proof (HV M IM) as HM.
  assert (E : (m == M)%Q) by lra.
  assert (H1 : exec (map (computeFrequencies fs) ds)
               = exec (map (fun d => buildHistogram fs
                                       (@set_extents Exact d (Fin M) (Fin m))) ds)).
  { unfold computeFrequencies.
    rewrite (exec_reduceRange_bind (buildHistogram fs) ds HR), RM, Rm. reflexivity. }
  exists m, M. split; [exact E|]. split; [|split; [exact H1|]].
  - rewrite (exec_reduceRange ds HR), RM, Rm. reflexivity.
  - rewrite H1. destruct ds as [|d0 ds]; [congruence|].
    cbn [map]. unfold buildHistogram at 1.
    rewrite (degenerate_local_histogram (@set_extents Exact d0 (Fin M) (Fin m)) m M E);
      try reflexivity.
    + rewrite Forall_forall in HR. apply (HR d0). left. reflexivity.
    + apply Forall_forall. intros x Hx.
      assert (Hin : In x (all_samples (d0 :: ds))).
      { apply in_all_samples. exists d0. split; [left; reflexivity | exact Hx]. }
      pose proof (HV x Hin). lra.
Qed.

Lemma degenerate_range_not_detected_witness :
  let fs := @Build_FileSystem Exact (fun _ => None) (fun _ => true) in
  let d := @Build_Density Exact 0 1 [("a"%string, 2)] 2 2 [1%Q; 1%Q] "out" 5
             [0; 0; 0; 0; 0] (Fin 0) (Fin 0) in
  exec (map (computeFrequencies fs) [d]) = inl (UndefinedBehaviour "static_cast<int>").
Proof.
  intros fs d.
  destruct (degenerate_range_not_detected fs [d] 1%Q) as (m & M & _ & _ & _ & E).
  - discriminate.
  - constructor; [|constructor]. split; discriminate.
  - repeat constructor.
  - exact E.
Defined.

(** C4, as stated, fails: one rank whose file holds the sample 1 twice. Both
    reductions return 1, no error is raised for the range, the binning loop
    starts and its first cast is undefined (binary64 and exact arithmetic
    agree). *)
Lemma degenerate_run_enters_binning :
  let cfg := {| cfg_inputs := [("a"%string, 2)]; cfg_nb_bins := 5; cfg_plots := "out" |} in
  let fsB := @Build_FileSystem Binary64
               (fun p => if String.eqb p "a" then Some [1%float; 1%float] else None)
               (fun _ => true) in
  let fsE := @Build_FileSystem Exact
               (fun p => if String.eqb p "a" then Some [1%Q; 1%Q] else None)
               (fun _ => true) in
  let loadedB := snd (loadFiles fsB (constructed (Ar:=Binary64) cfg 1 0)) in
  match exec [reduceRange loadedB] with
  | inr [d] => total_max d = 1%float /\ total_min d = 1%float
  | _ => False
  end
  /\ local_histogram (@set_extents Binary64 loadedB 1%float 1%float)
     = inl (UndefinedBehaviour "static_cast<int>")
  /\ exec [run fsB (constructed (Ar:=Binary64) cfg 1 0)]
     = inl (UndefinedBehaviour "static_cast<int>")
  /\ exec [run fsE (constructed (Ar:=Exact) cfg 1 0)]
     = inl (UndefinedBehaviour "static_cast<int>").
Proof. vm_compute. repeat split; reflexivity. Qed.

(** ** [run] after a failed load *)

(** C5 fails on the code: the second input cannot be opened, [loadFiles]
    returns [false], and [run] goes on: the extrema are reduced, the buffer
    (two samples read, two left at zero) is binned and rank 0 writes the
    histogram file. *)
Lemma run_after_failed_load :
  let nl := Ostream.newline in
  let tab := Ostream.tab in
  let cfg := {| cfg_inputs := [("a", 2); ("b", 2)]%string; cfg_nb_bins := 2;
                cfg_plots := "out" |} in
  let fs := @Build_FileSystem Binary64
              (fun p => if String.eqb p "a" then Some [1%float; 2%float] else None)
              (fun _ => true) in
  let d := constructed (Ar:=Binary64) cfg 1 0 in
  fst (loadFiles fs d) = false
  /\ density (snd (loadFiles fs d)) = [1%float; 2%float; 0%float; 0%float]
  /\ match exec [run fs d] with
     | inr [(d', files)] =>
         histo d' = [2; 2]
         /\ files = [("out.dat"%string,
                      ("# bins: 2" ++ nl ++ "# col 1: density range" ++ nl
                       ++ "# col 2: particle count" ++ nl
                       ++ "         1" ++ tab ++ "2" ++ nl
                       ++ "         2" ++ tab ++ "2" ++ nl)%string)]
     | _ => False
     end.
Proof. vm_compute. repeat split; reflexivity. Qed.

(** ** The example of the specification *)

(** Two ranks holding the samples 0, 1, 2 and 3, 4, with 5 bins, in
    binary64: both ranks end with the extrema 0 and 4 and the histogram
    [1; 1; 1; 1; 1]. *)
Lemma two_rank_example :
  let cfg := {| cfg_inputs := [("a", 3); ("b", 2)]%string; cfg_nb_bins := 5;
                cfg_plots := "out" |} in
  let fs := @Build_FileSystem Binary64
              (fun p => if String.eqb p "a" then Some [0%float; 1%float; 2%float]
                        else if String.eqb p "b" then Some [3%float; 4%float]
                        else None)
              (fun _ => true) in
  match exec (map (fun r => bind (Density_new (Ar:=Binary64) cfg r 2) (run fs)) (seq 0 2)) with
  | inr out =>
      map (fun o => (my_rank (fst o), histo (fst o), total_min (fst o), total_max (fst o))) out
      = [(0, [1; 1; 1; 1; 1], 0%float, 4%float); (1, [1; 1; 1; 1; 1], 0%float, 4%float)]
  | inl _ => False
  end.
Proof. vm_compute. reflexivity. Qed.

(** One rank holding all five samples ends with the same histogram. *)
Lemma single_rank_example :
  let cfg := {| cfg_inputs := [("a", 3); ("b", 2)]%string; cfg_nb_bins := 5;
                cfg_plots := "out" |} in
  let fs := @Build_FileSystem Binary64
              (fun p => if String.eqb p "a" then Some [0%float; 1%float; 2%float]
                        else if String.eqb p "b" then Some [3%float; 4%float]
                        else None)
              (fun _ => true) in
  match exec (map (fun r => bind (Density_new (Ar:=Binary64) cfg r 1) (run fs)) (seq 0 1)),
        exec (map (fun r => bind (Density_new (Ar:=Binary64) cfg r 2) (run fs)) (seq 0 2)) with
  | inr [one], inr (first :: _) =>
      histo (fst one) = histo (fst first) /\ snd one = snd first
  | _, _ => False
  end.
Proof. vm_compute. split; reflexivity. Qed.

(* ------------------------------------------------------------------ *)
(** * Further properties of the code *)

(** ** The bins as intervals (exact arithmetic) *)


Section ExactIntervals.
Variables (m M : Q) (N : Z).
Hypothesis Hrange : (m < M)%Q.
Hypothesis HN : (0 < N <= INT_MAX)%Z.

Let w : Q := ((M + - m) / inject_Z N)%Q.









End ExactIntervals.









Lemma dump_line_boundary {Ar : Arith} (tmin tmax : double) (N k : Z)
  (o : Ostream.t) (value : nat) :
  dump_line tmin (d_div (d_sub tmax tmin) (d_of_int N)) o k value
  = Ostream.endl
      (Ostream.put_long value
         (Ostream.put Ostream.tab
            (Ostream.put_double (d_view (boundary tmin tmax N k))
               (Ostream.setprecision 4 (Ostream.setw 10 o))))).
Proof. reflexivity. Qed.



(** ** What a histogram entry counts *)


Section BinCounts.
Context {Ar : Arith}.
Variables (tmin tmax : double) (N : Z).




End BinCounts.








(** ** Failures that end a run *)



Section EmptyRank.
Context {Ar : Arith}.
Context {A : Type}.

Lemma all_double_failed (e : failure) (ps : list (mpi A)) :
  Forall (at_max_or_failed e) ps -> Exists (fun p => p = Fail e) ps ->
  all_double MPI_MAX ps = inl e.
Proof.
  induction ps as [|p ps IH]; intros HF HE; [inversion HE|].
  apply Forall_cons_iff in HF. destruct HF as [Hp Hps].
  destruct Hp as [-> | (x & k & ->)]; [reflexivity|].
  simpl. rewrite IH; [reflexivity | exact Hps|].
  apply Exists_cons in HE. destruct HE as [HE | HE]; [discriminate | exact HE].
Qed.

Lemma exec_failed (e : failure) (ps : list (mpi A)) :
  Forall (at_max_or_failed e) ps -> Exists (fun p => p = Fail e) ps ->
  exec ps = inl e.
Proof.
  intros HF HE. destruct ps as [|p ps]; [inversion HE|].
  apply Forall_cons_iff in HF. destruct HF as [Hp Hps].
  destruct Hp as [-> | (x & k & ->)]; [reflexivity|].
  simpl. rewrite (all_double_failed e); [reflexivity | exact Hps|].
  apply Exists_cons in HE. destruct HE as [HE | HE]; [discriminate | exact HE].
Qed.

End EmptyRank.

(** X6. A rank without samples ([local_count] 0) stops at the assert of line
    129 while the other ranks wait in the first reduction: the job ends
    with that failure, whatever the other ranks hold. *)
Theorem empty_rank_aborts {Ar : Arith} (fs : FileSystem) (ds : list Density) :
  Forall (fun d => local_count d = 0 \/ ready d) ds ->
  Exists (fun d => local_count d = 0) ds ->
  exec (map (computeFrequencies fs) ds) = inl (AssertionFailed "local_count").
Proof.
  intros HF HE. apply (exec_failed (AssertionFailed "local_count")).
  - apply Forall_forall. intros p Hp. apply in_map_iff in Hp.
    destruct Hp as (d & <- & Hd). rewrite Forall_forall in HF.
    destruct (HF d Hd) as [Z0 | [HT HS]].
    + left. unfold computeFrequencies, reduceRange. rewrite Z0. reflexivity.
    + right. unfold computeFrequencies.
      rewrite (reduceRange_bind d (buildHistogram fs) HT HS).
      eexists. eexists. reflexivity.
  - apply Exists_exists in HE. destruct HE as (d & Hd & Z0).
    apply Exists_exists. exists (computeFrequencies fs d).
    split; [apply in_map; exact Hd|].
    unfold computeFrequencies, reduceRange. rewrite Z0. reflexivity.
Qed.

Lemma empty_rank_aborts_witness :
  let fs := @Build_FileSystem Exact (fun _ => None) (fun _ => true) in
  let d0 := @Build_Density Exact 0 2 [("a"%string, 2)] 2 2 [0%Q; 1%Q] "out" 5
              [0; 0; 0; 0; 0] (Fin 0) (Fin 0) in
  let d1 := @Build_Density Exact 1 2 [("b"%string, 0)] 0 2 [] "out" 5
              [0; 0; 0; 0; 0] (Fin 0) (Fin 0) in
  exec (map (computeFrequencies fs) [d0; d1]) = inl (AssertionFailed "local_count").
Proof.
  intros fs d0 d1. apply (empty_rank_aborts fs [d0; d1]).
  - constructor; [right; split; discriminate|].
    constructor; [left; reflexivity | constructor].
  - right. left. reflexivity.
Defined.

(** ** The buffer after [loadFiles] *)


Section LoadedImage.
Context {Ar : Arith}.
Variable fs : FileSystem.






End LoadedImage.



(** ** The outcomes of the constructor *)

Section ConstructorOutcomes.
Context {Ar : Arith}.

Lemma Density_new_mismatch (cfg : Config) (W r : nat) :
  1 < W ->
  List.length (cfg_inputs cfg) < W \/ List.length (cfg_inputs cfg) mod W <> 0 ->
  Density_new cfg r W = Fail (RuntimeError mismatch_message).
Proof.
  intros HW HT. unfold Density_new.
  replace (0 <? W) with true by (symmetry; apply Nat.ltb_lt; lia).
  simpl bind at 1.
  replace (W =? 1) with false by (symmetry; apply Nat.eqb_neq; lia).
  replace ((List.length (cfg_inputs cfg) <? W)
           || negb (List.length (cfg_inputs cfg) mod W =? 0)) with true; [reflexivity|].
  symmetry. apply orb_true_iff. destruct HT as [HT | HT].
  - left. apply Nat.ltb_lt. exact HT.
  - right. apply negb_true_iff, Nat.eqb_neq. exact HT.
Qed.

Lemma Density_new_no_inputs (cfg : Config) (r : nat) :
  cfg_inputs cfg = [] -> Density_new cfg r 1 = Fail (AssertionFailed "offset").
Proof. intros E. unfold Density_new. rewrite E. reflexivity. Qed.

Lemma construct_bad_bins (cfg : Config) (W : nat) :
  0 < W -> W <= List.length (cfg_inputs cfg) ->
  List.length (cfg_inputs cfg) mod W = 0 -> (cfg_nb_bins cfg <= 0)%Z ->
  exec (map (fun r => Density_new cfg r W) (seq 0 W))
  = inl (AssertionFailed "nb_bins > 0").
Proof.
  intros HW HT HM HB.
  rewrite (map_ext_in _ _ _
             (fun r Hr => Density_new_partitioned cfg W r HW HT HM
                            (proj2 (proj1 (in_seq W 0 r) Hr)))).
  rewrite (exec_allreduce_sum 1) by (apply Forall_forall; reflexivity).
  replace (0 <? cfg_nb_bins cfg)%Z with false by (symmetry; apply Z.ltb_ge; exact HB).
  destruct W; [lia | reflexivity].
Qed.

(** The four outcomes, by the number of ranks, the number of inputs and
    the bin count. *)
Lemma construct_outcome (cfg : Config) (W : nat) :
  0 < W ->
  exec (map (fun r => Density_new cfg r W) (seq 0 W))
  = if (1 <? W) && ((List.length (cfg_inputs cfg) <? W)
                    || negb (List.length (cfg_inputs cfg) mod W =? 0))
    then inl (RuntimeError mismatch_message)
    else if List.length (cfg_inputs cfg) =? 0
    then inl (AssertionFailed "offset")
    else if (cfg_nb_bins cfg <=? 0)%Z
    then inl (AssertionFailed "nb_bins > 0")
    else inr (map (constructed cfg W) (seq 0 W)).
Proof.
  intros HW.
  destruct (Nat.ltb_spec 1 W) as [H1 | H1]; cbn [andb].
  - destruct (Nat.ltb_spec (List.length (cfg_inputs cfg)) W) as [HT | HT]; cbn [orb].
    + destruct W as [|W]; [lia|]. cbn [seq map exec].
      rewrite Density_new_mismatch by (try lia; left; exact HT). reflexivity.
    + destruct (Nat.eqb_spec (List.length (cfg_inputs cfg) mod W) 0) as [HM | HM];
        cbn [negb].
      * replace (List.length (cfg_inputs cfg) =? 0) with false
          by (symmetry; apply Nat.eqb_neq; lia).
        destruct (Z.leb_spec (cfg_nb_bins cfg) 0) as [HB | HB].
        -- apply construct_bad_bins; assumption.
        -- apply construct_world; assumption.
      * destruct W as [|W]; [lia|]. cbn [seq map exec].
        rewrite Density_new_mismatch by (try lia; right; exact HM). reflexivity.
  - assert (W = 1) by lia. subst W.
    destruct (Nat.eqb_spec (List.length (cfg_inputs cfg)) 0) as [HT | HT].
    + cbn [seq map exec]. rewrite Density_new_no_inputs; [reflexivity|].
      destruct (cfg_inputs cfg); [reflexivity | discriminate].
    + destruct (Z.leb_spec (cfg_nb_bins cfg) 0) as [HB | HB].
      * apply construct_bad_bins; [lia | lia | apply Nat.mod_1_r | exact HB].
      * apply construct_world; [lia | lia | apply Nat.mod_1_r | exact HB].
Qed.

End ConstructorOutcomes.

(** X8. The constructors of a world of [W >= 1] ranks all succeed exactly when
    the inputs can be shared evenly ([W <= T] and [W] divides [T]) and the bin
    count is positive; otherwise the job ends with the exception of line 81
    or with one of the asserts of lines 64 and 85, the same on every rank,
    and never with ranks left waiting in the reduction of line 78. *)
Theorem constructor_succeeds_iff {Ar : Arith} (cfg : Config) (W : nat) :
  0 < W ->
  ((exists ds, exec (map (fun r => Density_new cfg r W) (seq 0 W)) = inr ds)
   <-> W <= List.length (cfg_inputs cfg)
       /\ List.length (cfg_inputs cfg) mod W = 0
       /\ (0 < cfg_nb_bins cfg)%Z)
  /\ (forall e, exec (map (fun r => Density_new cfg r W) (seq 0 W)) = inl e ->
        e = RuntimeError mismatch_message
        \/ e = AssertionFailed "offset"
        \/ e = AssertionFailed "nb_bins > 0").
Proof.
  intros HW. rewrite (construct_outcome cfg W HW).
  destruct (Nat.ltb_spec 1 W) as [H1 | H1]; cbn [andb].
  - destruct (Nat.ltb_spec (List.length (cfg_inputs cfg)) W) as [HT | HT]; cbn [orb].
    + split; [split|].
      * intros (ds & E). discriminate.
      * intros (H & _). lia.
      * intros e E. injection E as <-. left. reflexivity.
    + destruct (Nat.eqb_spec (List.length (cfg_inputs cfg) mod W) 0) as [HM | HM];
        cbn [negb].
      * replace (List.length (cfg_inputs cfg) =? 0) with false
          by (symmetry; apply Nat.eqb_neq; lia).
        destruct (Z.leb_spec (cfg_nb_bins cfg) 0) as [HB | HB].
        -- split; [split|].
           ++ intros (ds & E). discriminate.
           ++ intros (_ & _ & H). lia.
           ++ intros e E. injection E as <-. right. right. reflexivity.
        -- split; [split|].
           ++ intros _. repeat split; assumption.
           ++ intros _. eexists. reflexivity.
           ++ intros e E. discriminate.
      * split; [split|].
        -- intros (ds & E). discriminate.
        -- intros (_ & H & _). contradiction.
        -- intros e E. injection E as <-. left. reflexivity.
  - assert (W = 1) by lia. subst W.
    destruct (Nat.eqb_spec (List.length (cfg_inputs cfg)) 0) as [HT | HT].
    + split; [split|].
      * intros (ds & E). discriminate.
      * intros (H & _). lia.
      * intros e E. injection E as <-. right. left. reflexivity.
    + destruct (Z.leb_spec (cfg_nb_bins cfg) 0) as [HB | HB].
      * split; [split|].
        -- intros (ds & E). discriminate.
        -- intros (_ & _ & H). lia.
        -- intros e E. injection E as <-. right. right. reflexivity.
      * split; [split|].
        -- intros _. split; [lia|]. split; [apply Nat.mod_1_r | exact HB].
        -- intros _. eexists. reflexivity.
        -- intros e E. discriminate.
Qed.

Lemma constructor_succeeds_iff_witness :
  exists ds,
    exec (map (fun r => Density_new (Ar:=Exact)
                          {| cfg_inputs := [("a", 3); ("b", 2)]%string;
                             cfg_nb_bins := 5; cfg_plots := "out" |} r 2) (seq 0 2))
    = inr ds.
Proof.
  refine (proj2 (proj1 (constructor_succeeds_iff (Ar:=Exact) _ 2 _)) _).
  - lia.
  - simpl. repeat split; lia.
Defined.

(** X9. What the constructors leave when they succeed: one object per rank,
    numbered in order, each with a zeroed buffer of [local_count] samples,
    [local_count] the sum of the counts of its own inputs, [total_count]
    the sum of the local counts of all ranks, and a zeroed histogram of
    [nb_bins > 0] entries. *)
Theorem constructor_invariants {Ar : Arith} (cfg : Config) (W : nat)
  (ds : list Density) :
  exec (map (fun r => Density_new cfg r W) (seq 0 W)) = inr ds ->
  map my_rank ds = seq 0 W
  /\ Forall (fun d =>
               nb_ranks d = W
               /\ local_count d = count_sum (inputs d)
               /\ density d = repeat f_zero (local_count d)
               /\ total_count d = list_sum (map local_count ds)
               /\ total_count d = count_sum (cfg_inputs cfg)
               /\ (0 < nb_bins d)%Z
               /\ nb_bins d = cfg_nb_bins cfg
               /\ histo d = repeat 0 (Z.to_nat (nb_bins d))
               /\ output_plot d = cfg_plots cfg) ds.
Proof.
  destruct (Nat.eq_dec W 0) as [-> | HW0].
  { simpl. intros E. injection E as <-. split; [reflexivity | constructor]. }
  assert (HW : 0 < W) by lia.
  rewrite (construct_outcome cfg W HW).
  destruct ((1 <? W) && ((List.length (cfg_inputs cfg) <? W)
                         || negb (List.length (cfg_inputs cfg) mod W =? 0))) eqn:C1;
    [discriminate|].
  destruct (Nat.eqb_spec (List.length (cfg_inputs cfg)) 0) as [HT | HT]; [discriminate|].
  destruct (Z.leb_spec (cfg_nb_bins cfg) 0) as [HB | HB]; [discriminate|].
  intros E. injection E as E. subst ds.
  assert (HM : List.length (cfg_inputs cfg) mod W = 0).
  { destruct (Nat.ltb_spec 1 W) as [H1 | H1]; cbn [andb] in C1.
    - apply orb_false_iff in C1. destruct C1 as [_ C1].
      apply negb_false_iff, Nat.eqb_eq in C1. exact C1.
    - replace W with 1 by lia. apply Nat.mod_1_r. }
  split.
  - rewrite map_map. cbn [constructed my_rank]. apply map_id.
  - apply Forall_forall. intros d Hd. apply in_map_iff in Hd.
    destruct Hd as (r & <- & Hr). cbn.
    repeat split; try reflexivity; try assumption.
    symmetry. apply (sum_local_counts cfg W HW HM).
Qed.

Lemma constructor_invariants_witness :
  let cfg := {| cfg_inputs := [("a", 3); ("b", 2)]%string; cfg_nb_bins := 5;
                cfg_plots := "out" |} in
  map my_rank (map (constructed (Ar:=Exact) cfg 2) (seq 0 2)) = seq 0 2.
Proof.
  intros cfg.
  exact (proj1 (constructor_invariants (Ar:=Exact) cfg 2
                  (map (constructed (Ar:=Exact) cfg 2) (seq 0 2)) eq_refl)).
Defined.

(** ** A whole run, from the constructed world *)

Section WholeRun.
Context {Ar : Arith}.
Variable fs : FileSystem.




End WholeRun.





(** ** One rank or many *)




Section LoadedWorld.
Context {Ar : Arith}.
Variable fs : FileSystem.




End LoadedWorld.





